(** * RepoHealth: the GitHub repository checker, embedded and verified

    A shallow embedding of [github_repo_checker.py]: the HTTP request
    wrapper with its rate-limit wait and its exponential backoff, the
    paginated repository search, the two classifiers, the report builder
    and the orchestrator.

    Python values are embedded as follows.
    - A repository record ([Dict[str, Any]]) is a [gmap string pyval]; the
      fields the program inspects hold JSON scalars.
    - A naive [datetime] is an integer number of microseconds since a
      fixed instant, a [timedelta] a number of microseconds; subtracting datetimes and comparing timedeltas is then
      integer arithmetic, as it is on Python's normalised representation.
    - The code talks to the outside (HTTP GET, clocks, sleeping).  A run is
      a function of the world state [world]; what the outside answers is
      given by the oracles of [Env].
    - Exceptions are values of [exn]; a computation ends in [Ret], in
      [Raise], or in [Diverge] when its recursion budget is used up.
      Printing to the console is not modelled, and neither is the
      interpreter's bound on the recursion depth. *)

From stdpp Require Import gmap strings list pretty.
From Stdlib Require Import ZArith Lia Sorted Permutation Ascii.

Open Scope Z_scope.

(** ** Values and exceptions *)

Inductive pyval :=
  | VNone
  | VBool (b : bool)
  | VInt (n : Z)
  | VStr (s : string).

Inductive request_error :=
  | ConnectionError (msg : string)   (* raised by requests.get itself *)
  | HTTPError (status : Z)           (* raised by raise_for_status *)
  | JSONDecodeError.                 (* raised by response.json(); a
                                        RequestException in requests *)

(** An exception class stands for itself and for its subclasses. *)
Inductive exn :=
  | RequestException (e : request_error)
  | KeyError (key : string)
  | TypeError
  | ValueError
  | OverflowError
  | OSError.

Inductive outcome (A : Type) :=
  | Ret (a : A)
  | Raise (e : exn)
  | Diverge.
Arguments Ret {A} a.
Arguments Raise {A} e.
Arguments Diverge {A}.

(** ** HTTP responses *)

(** What [response.json()] decodes to, as far as the program looks: an
    invalid body, or an object with or without the key ['items']. *)
Inductive body :=
  | InvalidJson
  | JsonObject (items : option (list (gmap string pyval))).

(** [headers] is keyed by the header names as the program spells them (the
    library's lookup ignores case). *)
Record response := {
  status_code : Z;
  headers : gmap string string;
  json : body
}.

Inductive get_outcome :=
  | GetRaises (msg : string)
  | GetResponse (r : response).

(** The dictionary [check_repository] builds: its keys are fixed, so it is a
    record here. *)
Record AnalysisResult := {
  name : pyval;
  url : pyval;
  description : pyval;
  stars : pyval;
  open_issues : pyval;
  last_push : pyval;
  created_at : pyval;
  is_outdated : bool;
  is_broken : bool
}.

(** ** Files *)

(** How [open(path, 'w')] followed by [json.dump] ends: the collection is
    written out; or the file cannot be opened and nothing is written; or
    the dump breaks off, which leaves a file cut short. *)
Inductive write_outcome :=
  | WriteOk
  | OpenFails (e : exn)
  | DumpFails (e : exn).

(** What a write left at a path: the whole collection, or a part of its
    text. *)
Inductive file_content :=
  | Complete (results : list AnalysisResult)
  | Partial (results : list AnalysisResult).

(** ** The environment and the world *)

(** [strptime] and [int_of_str] are the library's parsers
    ([datetime.strptime] at the format ['%Y-%m-%dT%H:%M:%SZ'] and [int] on a
    string; [None] is their [ValueError]).  [http_get k url] is the answer
    to the GET issued after [k] earlier ones, [time_time k] the value of
    [int(time.time())] read after [k] requests, [utcnow k] the value of
    [datetime.utcnow()] at its [k]-th reading, [fs_write path results] the
    way writing [results] to [path] ends.  [sleep_long secs] is what the
    platform does with a wait of more than [SLEEP_SAFE] seconds that fits
    the nanosecond count of [time.sleep]: [None] when it sleeps, the
    exception when it refuses (such as the [OSError] of a deadline beyond
    the range of the clock). *)
Record Env := {
  strptime : string → option Z;
  int_of_str : string → option Z;
  http_get : nat → string → get_outcome;
  time_time : nat → Z;
  utcnow : nat → Z;
  GITHUB_TOKEN : option string;
  fs_write : string → list AnalysisResult → write_outcome;
  sleep_long : Z → option exn
}.

Record world := {
  requested : list string;   (* the URLs requested so far, oldest first *)
  slept : list Z;            (* the arguments of time.sleep, oldest first *)
  clock_reads : nat;         (* how often datetime.utcnow() was read *)
  saved : list (string * file_content)
                             (* the files written: path and content *)
}.

Definition world0 : world :=
  {| requested := []; slept := []; clock_reads := 0%nat; saved := [] |}.

Definition log_request (url : string) (w : world) : world :=
  {| requested := requested w ++ [url]; slept := slept w;
     clock_reads := clock_reads w; saved := saved w |}.

Definition log_sleep (secs : Z) (w : world) : world :=
  {| requested := requested w; slept := slept w ++ [secs];
     clock_reads := clock_reads w; saved := saved w |}.

Definition tick (w : world) : world :=
  {| requested := requested w; slept := slept w;
     clock_reads := S (clock_reads w); saved := saved w |}.

Definition log_saved (path : string) (content : file_content)
    (w : world) : world :=
  {| requested := requested w; slept := slept w;
     clock_reads := clock_reads w; saved := saved w ++ [(path, content)] |}.

(** ** The monad of runs: state, kept when an exception is raised *)

Definition M (A : Type) : Type := world → outcome A * world.

Definition ret {A} (a : A) : M A := fun w => (Ret a, w).
Definition raise {A} (e : exn) : M A := fun w => (Raise e, w).
Definition diverge {A} : M A := fun w => (Diverge, w).

Definition bind {A B} (m : M A) (f : A → M B) : M B :=
  fun w =>
    match m w with
    | (Ret a, w') => f a w'
    | (Raise e, w') => (Raise e, w')
    | (Diverge, w') => (Diverge, w')
    end.

#[global] Instance M_ret : MRet M := @ret.
#[global] Instance M_bind : MBind M := fun A B f m => bind m f.

(** [try: m except requests.RequestException as e: h e] *)
Definition try_except {A} (m : M A) (h : request_error → M A) : M A :=
  fun w =>
    match m w with
    | (Raise (RequestException e), w') => h e w'
    | r => r
    end.

Definition lift_option {A} (e : exn) (o : option A) : M A :=
  match o with
  | Some a => ret a
  | None => raise e
  end.

(** ** Constants *)

Definition BASE_URL : string := "https://api.github.com".
Definition MAX_RETRIES : nat := 3.
Definition OUTDATED_THRESHOLD_DAYS : Z := 365.
Definition BROKEN_THRESHOLD_DAYS : Z := 180.
Definition BROKEN_ISSUES_THRESHOLD : Z := 10.

(** The longest time in seconds that fits the 64-bit nanosecond count of
    [time.sleep], [(2^63 - 1) // 10^9], and a length that every platform
    takes (the number of whole seconds in [2^32 - 1] milliseconds, 49
    days). *)
Definition SLEEP_MAX : Z := 9223372036.
Definition SLEEP_SAFE : Z := 4294967.

(** [timedelta(days=n)], in microseconds. *)
Definition timedelta_days (n : Z) : Z := n * 86400 * 1000000.

(** ** Python's operators on the embedded values *)

Definition int_value (v : pyval) : option Z :=
  match v with
  | VInt n => Some n
  | VBool b => Some (if b then 1 else 0)
  | _ => None
  end.

(** [a < b]: numbers with numbers, strings with strings, [TypeError]
    otherwise. *)
Definition py_lt (a b : pyval) : option bool :=
  match int_value a, int_value b with
  | Some x, Some y => Some (x <? y)
  | _, _ =>
    match a, b with
    | VStr s, VStr t => Some (String.ltb s t)
    | _, _ => None
    end
  end.

Definition py_gt (a b : pyval) : option bool := py_lt b a.

Definition default_value (default : pyval) (o : option pyval) : pyval :=
  match o with
  | Some v => v
  | None => default
  end.

(** [str.lower()] on ASCII letters. *)
Definition lower_ascii (a : Ascii.ascii) : Ascii.ascii :=
  let n := Ascii.N_of_ascii a in
  if ((65 <=? n) && (n <=? 90))%N then Ascii.ascii_of_N (n + 32) else a.

Fixpoint lower (s : string) : string :=
  match s with
  | EmptyString => EmptyString
  | String a s' => String (lower_ascii a) (lower s')
  end.

(** [l[:n]] *)
Definition slice_to {A} (l : list A) (n : Z) : list A :=
  if n <? 0 then take (Z.to_nat (Z.of_nat (length l) + n)) l
  else take (Z.to_nat n) l.

(** The f-strings of [search_repos]. *)
Definition search_url (query sort order : string) (per_page : Z) : string :=
  BASE_URL +:+ "/search/repositories?q=" +:+ query
  +:+ "&sort=" +:+ sort +:+ "&order=" +:+ order
  +:+ "&per_page=" +:+ pretty per_page.

Definition page_url (url : string) (page : Z) : string :=
  url +:+ "&page=" +:+ pretty page.

(** ** list.sort(key=..., reverse=True)

    The library sort is stable, compares with [<] only and, with
    [reverse=True], leaves equal keys in their original order.  An
    insertion sort with these properties stands for it; [None] is the
    [TypeError] of a comparison. *)

Fixpoint insert_desc {A} (key : A → pyval) (x : A) (l : list A)
  : option (list A) :=
  match l with
  | [] => Some [x]
  | y :: l' =>
    b ← py_lt (key x) (key y) ;
    if b : bool then l'' ← insert_desc key x l' ; Some (y :: l'')
    else Some (x :: y :: l')
  end.

Fixpoint sort_reverse {A} (key : A → pyval) (l : list A) : option (list A) :=
  match l with
  | [] => Some []
  | x :: l' => s ← sort_reverse key l' ; insert_desc key x s
  end.

(** The command line: [--query], [--output], [--max_repos]. *)
Record Namespace := {
  query : string;
  output : option string;
  max_repos : Z
}.

(** Truth value of an optional string ([None] and [''] are false). *)
Definition truthy (o : option string) : bool :=
  match o with
  | Some (String _ _) => true
  | _ => false
  end.

Section Program.

Variable env : Env.

(** ** Primitive effects *)

Definition requests_get (url : string) : M response :=
  fun w =>
    match http_get env (length (requested w)) url with
    | GetRaises msg =>
      (Raise (RequestException (ConnectionError msg)), log_request url w)
    | GetResponse r => (Ret r, log_request url w)
    end.

Definition time_now : M Z :=
  fun w => (Ret (time_time env (length (requested w))), w).

(** [time.sleep(secs)] on an integer: the argument is first turned into a
    64-bit count of nanoseconds, an [OverflowError] when it does not fit;
    a negative one is a [ValueError]; a wait of up to [SLEEP_SAFE] seconds
    is taken, and a longer one is up to the platform. *)
Definition time_sleep (secs : Z) : M unit :=
  fun w =>
    if (secs <? - SLEEP_MAX) || (SLEEP_MAX <? secs)
    then (Raise OverflowError, w)
    else if secs <? 0 then (Raise ValueError, w)
    else if secs <=? SLEEP_SAFE then (Ret tt, log_sleep secs w)
    else
      match sleep_long env secs with
      | Some e => (Raise e, w)
      | None => (Ret tt, log_sleep secs w)
      end.

Definition datetime_utcnow : M Z :=
  fun w => (Ret (utcnow env (clock_reads w)), tick w).

(** [datetime.strptime(v, '%Y-%m-%dT%H:%M:%SZ')] *)
Definition datetime_strptime (v : pyval) : M Z :=
  match v with
  | VStr s => lift_option ValueError (strptime env s)
  | _ => raise TypeError
  end.

(** [int(response.headers[name])]; the [KeyError] of the library's
    case-insensitive dictionary names the key in lower case. *)
Definition int_header (r : response) (name : string) : M Z :=
  s ← lift_option (KeyError (lower name)) (headers r !! name) ;
  lift_option ValueError (int_of_str env s).

Definition raise_for_status (r : response) : M unit :=
  if (400 <=? status_code r) && (status_code r <? 600)
  then raise (RequestException (HTTPError (status_code r)))
  else ret tt.

(** [response.json()['items']] *)
Definition json_items (r : response) : M (list (gmap string pyval)) :=
  match json r with
  | InvalidJson => raise (RequestException JSONDecodeError)
  | JsonObject None => raise (KeyError "items")
  | JsonObject (Some l) => ret l
  end.

(** ** make_request *)

Fixpoint make_request (fuel : nat) (url : string) (retry_count : nat)
  : M response :=
  match fuel with
  | O => diverge
  | S fuel' =>
    try_except
      (response ← requests_get url ;
       let finish := (raise_for_status response ;; ret response) in
       if (status_code response =? 403)
          && bool_decide (is_Some (headers response !! "X-RateLimit-Remaining"))
       then
         remaining ← int_header response "X-RateLimit-Remaining" ;
         if remaining =? 0 then
           reset_time ← int_header response "X-RateLimit-Reset" ;
           now ← time_now ;
           let sleep_time := reset_time - now + 1 in
           time_sleep sleep_time ;;
           make_request fuel' url 0
         else finish
       else finish)
      (fun e =>
         if (retry_count <? MAX_RETRIES)%nat then
           let wait_time := 2 ^ Z.of_nat retry_count in
           time_sleep wait_time ;;
           make_request fuel' url (S retry_count)
         else raise (RequestException e))
  end.

(** ** search_repos *)

(** How one turn of the [while] loop ends. *)
Inductive loop_ctl :=
  | Break (all_repos : list (gmap string pyval))
  | Continue (all_repos : list (gmap string pyval)) (page : Z).

(** The body of the loop: the [try] block and its handler. *)
Definition search_page (fuel : nat) (url : string) (max_repos : Z)
    (all_repos : list (gmap string pyval)) (page : Z) : M loop_ctl :=
  try_except
    (response ← make_request fuel (page_url url page) 0 ;
     repos ← json_items response ;
     match repos with
     | [] => mret (Break all_repos)
     | _ =>
       let all_repos := all_repos ++ repos in
       let page := page + 1 in
       if Z.of_nat (length all_repos) >=? max_repos
       then mret (Break all_repos)
       else mret (Continue all_repos page)
     end)
    (fun e => mret (Break all_repos)).

Fixpoint search_loop (iters fuel : nat) (url : string) (max_repos : Z)
    (all_repos : list (gmap string pyval)) (page : Z)
  : M (list (gmap string pyval)) :=
  if Z.of_nat (length all_repos) <? max_repos then
    match iters with
    | O => diverge
    | S iters' =>
      c ← search_page fuel url max_repos all_repos page ;
      match c with
      | Break all_repos => mret all_repos
      | Continue all_repos page =>
        search_loop iters' fuel url max_repos all_repos page
      end
    end
  else mret all_repos.

Definition search_repos (fuel : nat) (query sort order : string)
    (per_page max_repos : Z) : M (list (gmap string pyval)) :=
  let url := search_url query sort order per_page in
  all_repos ← search_loop fuel fuel url max_repos [] 1 ;
  mret (slice_to all_repos max_repos).

(** ** The classifiers *)

(** [not repo_info or 'pushed_at' not in repo_info]; [None] is Python's
    [None]. *)
Definition no_push_date (repo_info : option (gmap string pyval)) : bool :=
  match repo_info with
  | None => true
  | Some d =>
    bool_decide (d = ∅) || negb (bool_decide (is_Some (d !! "pushed_at")))
  end.

(** [repo_info[key]] *)
Definition getitem (repo_info : option (gmap string pyval)) (key : string)
  : M pyval :=
  match repo_info with
  | None => raise TypeError
  | Some d => lift_option (KeyError key) (d !! key)
  end.

(** [repo_info.get(key, default)] *)
Definition dict_get (repo_info : option (gmap string pyval)) (key : string)
    (default : pyval) : M pyval :=
  match repo_info with
  | None => raise TypeError
  | Some d => mret (default_value default (d !! key))
  end.

Definition is_repo_outdated (repo_info : option (gmap string pyval))
  : M bool :=
  if no_push_date repo_info then mret false
  else
    pushed_at ← getitem repo_info "pushed_at" ;
    last_push ← datetime_strptime pushed_at ;
    now ← datetime_utcnow ;
    mret (now - last_push >? timedelta_days OUTDATED_THRESHOLD_DAYS).

Definition is_repo_broken (repo_info : option (gmap string pyval))
  : M bool :=
  if no_push_date repo_info then mret false
  else
    pushed_at ← getitem repo_info "pushed_at" ;
    last_push ← datetime_strptime pushed_at ;
    issues ← dict_get repo_info "open_issues_count" (VInt 0) ;
    has_open_issues ←
      lift_option TypeError (py_gt issues (VInt BROKEN_ISSUES_THRESHOLD)) ;
    now ← datetime_utcnow ;
    let no_recent_commits :=
      now - last_push >? timedelta_days BROKEN_THRESHOLD_DAYS in
    mret (has_open_issues && no_recent_commits).

(** ** check_repository *)

Definition check_repository (repo_info : option (gmap string pyval))
  : M AnalysisResult :=
  v_name ← getitem repo_info "full_name" ;
  v_url ← getitem repo_info "html_url" ;
  v_description ← dict_get repo_info "description" (VStr "") ;
  v_stars ← getitem repo_info "stargazers_count" ;
  v_open_issues ← getitem repo_info "open_issues_count" ;
  v_last_push ← getitem repo_info "pushed_at" ;
  v_created_at ← getitem repo_info "created_at" ;
  v_is_outdated ← is_repo_outdated repo_info ;
  v_is_broken ← is_repo_broken repo_info ;
  mret {| name := v_name; url := v_url; description := v_description;
          stars := v_stars; open_issues := v_open_issues;
          last_push := v_last_push; created_at := v_created_at;
          is_outdated := v_is_outdated; is_broken := v_is_broken |}.

(** ** main

    The model returns the final value of the local [results] ([None] when
    the run stops for want of a token), which the source only prints and
    writes out. *)

Fixpoint check_all (repos : list (gmap string pyval))
  : M (list AnalysisResult) :=
  match repos with
  | [] => mret []
  | repo :: repos' =>
    result ← check_repository (Some repo) ;
    results ← check_all repos' ;
    mret (result :: results)
  end.

(** [with open(path, 'w', ...) as f: json.dump(results, f, ...)] *)
Definition json_dump (path : string) (results : list AnalysisResult)
  : M unit :=
  fun w =>
    match fs_write env path results with
    | WriteOk => (Ret tt, log_saved path (Complete results) w)
    | OpenFails e => (Raise e, w)
    | DumpFails e => (Raise e, log_saved path (Partial results) w)
    end.

Definition main (fuel : nat) (args : Namespace)
  : M (option (list AnalysisResult)) :=
  if negb (truthy (GITHUB_TOKEN env)) then mret None
  else
    repos ← search_repos fuel (query args) "stars" "desc" 100
              (max_repos args) ;
    results ← check_all repos ;
    results ← lift_option TypeError (sort_reverse stars results) ;
    (match output args with
     | Some (String a path) => json_dump (String a path) results
     | _ => mret tt
     end) ;;
    mret (Some results).

End Program.

(** ** The library parsers on canonical input

    An instance of the two parsers that accepts the forms GitHub sends (a
    timestamp [YYYY-MM-DDTHH:MM:SSZ], a decimal numeral) and rejects
    everything else.  The general theorems below hold for every [Env]; this
    instance serves to run the program on concrete inputs. *)

Definition digit (a : Ascii.ascii) : option Z :=
  let n := Z.of_N (Ascii.N_of_ascii a) in
  if (48 <=? n) && (n <=? 57) then Some (n - 48) else None.

Fixpoint digits_value (acc : Z) (s : string) : option Z :=
  match s with
  | EmptyString => Some acc
  | String a s' => d ← digit a ; digits_value (10 * acc + d) s'
  end.

Definition decimal (s : string) : option Z :=
  match s with
  | EmptyString => None
  | String "-"%char (String a s') => Z.opp <$> digits_value 0 (String a s')
  | _ => digits_value 0 s
  end.

Definition is_leap (y : Z) : bool :=
  ((y mod 4 =? 0) && negb (y mod 100 =? 0)) || (y mod 400 =? 0).

Definition days_in_month (y m : Z) : Z :=
  if m =? 2 then (if is_leap y then 29 else 28)
  else if (m =? 4) || (m =? 6) || (m =? 9) || (m =? 11) then 30
  else 31.

(** Days from 1970-01-01 to the given civil date. *)
Definition days_from_civil (y m d : Z) : Z :=
  let y' := if m <=? 2 then y - 1 else y in
  let era := y' / 400 in
  let yoe := y' - era * 400 in
  let doy := (153 * (if m >? 2 then m - 3 else m + 9) + 2) / 5 + d - 1 in
  let doe := yoe * 365 + yoe / 4 - yoe / 100 + doy in
  era * 146097 + doe - 719468.

Definition field (s : string) (start len : nat) : option Z :=
  digits_value 0 (String.substring start len s).

Definition strptime_iso (s : string) : option Z :=
  if negb (Nat.eqb (String.length s) 20) then None
  else if negb (String.eqb (String.substring 4 1 s) "-" && String.eqb (String.substring 7 1 s) "-"
                && String.eqb (String.substring 10 1 s) "T"
                && String.eqb (String.substring 13 1 s) ":"
                && String.eqb (String.substring 16 1 s) ":"
                && String.eqb (String.substring 19 1 s) "Z") then None
  else
    y ← field s 0 4 ; m ← field s 5 2 ; d ← field s 8 2 ;
    hh ← field s 11 2 ; mm ← field s 14 2 ; ss ← field s 17 2 ;
    if (1 <=? y) && (1 <=? m) && (m <=? 12) && (1 <=? d)
       && (d <=? days_in_month y m) && (hh <? 24) && (mm <? 60) && (ss <? 60)
    then Some ((((days_from_civil y m d * 24 + hh) * 60 + mm) * 60 + ss)
               * 1000000)
    else None.

Definition canonical_env (get : nat → string → get_outcome)
    (time utc : nat → Z) (token : option string) : Env :=
  {| strptime := strptime_iso; int_of_str := decimal; http_get := get;
     time_time := time; utcnow := utc; GITHUB_TOKEN := token;
     fs_write := fun _ _ => WriteOk; sleep_long := fun _ => None |}.

(** The same environment with another file system. *)
Definition with_fs (write : string → list AnalysisResult → write_outcome)
    (env : Env) : Env :=
  {| strptime := strptime env; int_of_str := int_of_str env;
     http_get := http_get env; time_time := time_time env;
     utcnow := utcnow env; GITHUB_TOKEN := GITHUB_TOKEN env;
     fs_write := write; sleep_long := sleep_long env |}.

(** ** Parts of the program, named for the proofs *)

(** The [try] block and the handler of [make_request], with the
    recursive call of the rate-limit branch as [again]. *)
Definition try_block env (url : string) (again : M response) : M response :=
  response ← requests_get env url ;
  let finish := (raise_for_status response ;; ret response) in
  if (status_code response =? 403)
     && bool_decide (is_Some (headers response !! "X-RateLimit-Remaining"))
  then
    remaining ← int_header env response "X-RateLimit-Remaining" ;
    if remaining =? 0 then
      reset_time ← int_header env response "X-RateLimit-Reset" ;
      now ← time_now env ;
      let sleep_time := reset_time - now + 1 in
      time_sleep env sleep_time ;;
      again
    else finish
  else finish.

(** Fetching one page: the request and the decoding of its items. *)
Definition fetch_items env (fuel : nat) (url : string) (page : Z)
  : M (list (gmap string pyval)) :=
  response ← make_request env fuel (page_url url page) 0 ;
  json_items response.

(** The pages [ps], fetched one after the other from page [page] on, each
    with at least one item. *)
Inductive pages_fetched env (fuel : nat) (url : string)
  : Z → world → list (list (gmap string pyval)) → world → Prop :=
  | fetched_none page w : pages_fetched env fuel url page w [] w
  | fetched_more page w items w1 ps w2 :
      fetch_items env fuel url page w = (Ret items, w1) →
      items ≠ [] →
      pages_fetched env fuel url (page + 1) w1 ps w2 →
      pages_fetched env fuel url page w (items :: ps) w2.

(** The world after [n] rate-limit waits on [url], the request counter
    standing at [k] before the first of them. *)
Fixpoint after_waits env (url : string) (reset : nat → Z) (n k : nat)
    (w : world) : world :=
  match n with
  | O => w
  | S n' =>
    after_waits env url reset n' (S k)
      (log_sleep (reset k - time_time env (S k) + 1) (log_request url w))
  end.

(** ** Kinds of answers to a request *)

(** The attempt ends in a request-level exception [e]: [requests.get]
    raises, or the answer has an error status and does not take the
    rate-limit branch. *)
Inductive request_fails (env : Env) : get_outcome → request_error → Prop :=
  | fails_connection msg :
      request_fails env (GetRaises msg) (ConnectionError msg)
  | fails_status r :
      400 ≤ status_code r < 600 →
      ¬ (status_code r = 403
         ∧ is_Some (headers r !! "X-RateLimit-Remaining")) →
      request_fails env (GetResponse r) (HTTPError (status_code r))
  | fails_forbidden r s n :
      status_code r = 403 →
      headers r !! "X-RateLimit-Remaining" = Some s →
      int_of_str env s = Some n →
      n ≠ 0 →
      request_fails env (GetResponse r) (HTTPError (status_code r)).

(** Status forbidden with rate-limit-remaining zero. *)
Definition forbidden_zero_remaining (env : Env) (o : get_outcome) : Prop :=
  ∃ r s, o = GetResponse r ∧ status_code r = 403
         ∧ headers r !! "X-RateLimit-Remaining" = Some s
         ∧ int_of_str env s = Some 0.

(** The same, with a reset header that holds the number [reset]. *)
Definition rate_limited (env : Env) (o : get_outcome) (reset : Z) : Prop :=
  ∃ r s s', o = GetResponse r ∧ status_code r = 403
            ∧ headers r !! "X-RateLimit-Remaining" = Some s
            ∧ int_of_str env s = Some 0
            ∧ headers r !! "X-RateLimit-Reset" = Some s'
            ∧ int_of_str env s' = Some reset.

(** The fields [check_repository] reads with a subscript, in the order it
    reads them. *)
Definition required_fields : list string :=
  ["full_name"; "html_url"; "stargazers_count"; "open_issues_count";
   "pushed_at"; "created_at"].

(** The star count of a report, when it is a number. *)
Definition star_count (r : AnalysisResult) : option Z := int_value (stars r).

Definition stars_desc (a b : AnalysisResult) : Prop :=
  ∃ x y, star_count a = Some x ∧ star_count b = Some y ∧ y ≤ x.

(** How [main] ends once the sorted collection [results] is there, in the
    world [w]: without an output path it returns; with one, it returns
    after the collection was written, or ends in the exception of the
    write, with nothing written or with a file cut short. *)
Definition after_write (env : Env) (args : Namespace)
    (results : list AnalysisResult) (w : world)
  : outcome (option (list AnalysisResult)) * world :=
  match output args with
  | Some (String a path) =>
    match fs_write env (String a path) results with
    | WriteOk =>
      (Ret (Some results), log_saved (String a path) (Complete results) w)
    | OpenFails e => (Raise e, w)
    | DumpFails e =>
      (Raise e, log_saved (String a path) (Partial results) w)
    end
  | _ => (Ret (Some results), w)
  end.

(** ** Sample data *)

(** A repository record with the fields the report needs. *)
Definition repo_record (full_name : string) (stargazers : Z) (issues : Z)
    (pushed_at : string) : gmap string pyval :=
  {[ "full_name" := VStr full_name;
     "html_url" := VStr ("https://github.com/" +:+ full_name);
     "description" := VNone;
     "stargazers_count" := VInt stargazers;
     "open_issues_count" := VInt issues;
     "pushed_at" := VStr pushed_at;
     "created_at" := VStr "2015-06-01T08:00:00Z" ]}.

(** A server that is never reached, and a clock that stands still at the
    given timestamp. *)
Definition offline : nat → string → get_outcome :=
  fun _ _ => GetRaises "connection refused".

Definition clock_at (stamp : string) : nat → Z :=
  fun _ => default 0 (strptime_iso stamp).

Definition env_at (stamp : string) : Env :=
  canonical_env offline (fun _ => 0) (clock_at stamp) (Some "token").

(** A server that answers every request with a rate-limit response whose
    reset header is [reset]. *)
Definition limited_response (reset : string) : response :=
  {| status_code := 403;
     headers := {[ "X-RateLimit-Remaining" := "0";
                   "X-RateLimit-Reset" := reset ]};
     json := JsonObject None |}.

Definition always_limited (reset : string) : nat → string → get_outcome :=
  fun _ _ => GetResponse (limited_response reset).

(** The reset lies 100 seconds before the local clock. *)
Definition stale_limit_env : Env :=
  canonical_env (always_limited "1700000000") (fun _ => 1700000100)
    (fun _ => 0) (Some "token").

(** The reset lies 60 seconds after the local clock. *)
Definition fresh_limit_env : Env :=
  canonical_env (always_limited "1700000060") (fun _ => 1700000000)
    (fun _ => 0) (Some "token").

(** Servers that answer with pages of 100 records: one that always does,
    and one that is gone after the first page. *)
Definition numbered_repo (i : nat) : gmap string pyval :=
  repo_record ("octo/repo" +:+ pretty i) (Z.of_nat i) 0
    "2023-01-01T00:00:00Z".

Definition sample_page (p : nat) : list (gmap string pyval) :=
  map numbered_repo (seq (100 * p) 100).

Definition ok_response (items : list (gmap string pyval)) : response :=
  {| status_code := 200; headers := ∅; json := JsonObject (Some items) |}.

Definition paged_server : nat → string → get_outcome :=
  fun k _ => GetResponse (ok_response (sample_page k)).

Definition one_page_server : nat → string → get_outcome :=
  fun k _ =>
    match k with
    | O => GetResponse (ok_response (sample_page 0))
    | S _ => GetRaises "connection reset"
    end.

Definition paged_env : Env :=
  canonical_env paged_server (fun _ => 0) (fun _ => 0) (Some "token").

Definition one_page_env : Env :=
  canonical_env one_page_server (fun _ => 0) (fun _ => 0) (Some "token").

(** A server with two records on its first page and nothing after, and
    the reports of these records. *)
Definition two_repos : list (gmap string pyval) :=
  [repo_record "octo/small" 50 11 "2023-01-01T00:00:00Z";
   repo_record "octo/large" 200 2 "2023-12-24T00:00:00Z"].

Definition two_repo_server : nat → string → get_outcome :=
  fun k _ =>
    match k with
    | O => GetResponse (ok_response two_repos)
    | S _ => GetResponse (ok_response [])
    end.

Definition two_repo_env : Env :=
  canonical_env two_repo_server (fun _ => 0)
    (clock_at "2024-01-02T00:00:00Z") (Some "token").

Definition report_small : AnalysisResult :=
  {| name := VStr "octo/small"; url := VStr "https://github.com/octo/small";
     description := VNone; stars := VInt 50; open_issues := VInt 11;
     last_push := VStr "2023-01-01T00:00:00Z";
     created_at := VStr "2015-06-01T08:00:00Z";
     is_outdated := true; is_broken := true |}.

Definition report_large : AnalysisResult :=
  {| name := VStr "octo/large"; url := VStr "https://github.com/octo/large";
     description := VNone; stars := VInt 200; open_issues := VInt 2;
     last_push := VStr "2023-12-24T00:00:00Z";
     created_at := VStr "2015-06-01T08:00:00Z";
     is_outdated := false; is_broken := false |}.

Definition sample_args : Namespace :=
  {| query := "stars:>100"; output := Some "report.json"%string;
     max_repos := 100 |}.

(** ** Kinds of outcomes *)

Definition is_request_exception {A} (o : outcome A) : bool :=
  match o with
  | Raise (RequestException _) => true
  | _ => false
  end.

Definition is_diverge {A} (o : outcome A) : bool :=
  match o with
  | Diverge => true
  | _ => false
  end.

Definition is_raise {A} (o : outcome A) : bool :=
  match o with
  | Raise _ => true
  | _ => false
  end.

(** ** What a computation touches *)

(** [m] reads the clock at most [n] times and does nothing else: it issues
    no request, does not sleep, writes nothing, and it ends. *)
Definition ticks {A} (n : nat) (m : M A) : Prop :=
  ∀ w, is_diverge (m w).1 = false
       ∧ ∃ k, (k ≤ n)%nat ∧ (m w).2 = Nat.iter k tick w.

(** From [w] to [w'], only URLs in [P] were requested and only
    non-negative times slept; [datetime.utcnow()] was not read and nothing
    was written. *)
Definition extends (P : string → Prop) (w w' : world) : Prop :=
  clock_reads w' = clock_reads w
  ∧ saved w' = saved w
  ∧ (∃ us, requested w' = requested w ++ us ∧ Forall P us)
  ∧ (∃ ss, slept w' = slept w ++ ss ∧ Forall (λ t, 0 ≤ t) ss).

Definition requests_only {A} (P : string → Prop) (m : M A) : Prop :=
  ∀ w, extends P w (m w).2.

(** ** Further worlds and servers *)

(** The world after [k] failed attempts at [url], each followed by its
    backoff sleep, the retry counter standing at [retry_count] at the first
    of them. *)
Fixpoint after_retries (url : string) (retry_count k : nat) (w : world)
  : world :=
  match k with
  | O => w
  | S k' =>
    after_retries url (S retry_count) k'
      (log_sleep (2 ^ Z.of_nat retry_count) (log_request url w))
  end.

(** A server that fails [k] times and then answers with [r]. *)
Definition flaky_server (k : nat) (r : response) : nat → string → get_outcome :=
  fun j _ => if (j <? k)%nat then GetRaises "timed out" else GetResponse r.

(** A server that answers the first request with a rate-limit response and
    the later ones with [then_]. *)
Definition limited_once (reset : string) (then_ : get_outcome)
  : nat → string → get_outcome :=
  fun j _ =>
    match j with
    | O => GetResponse (limited_response reset)
    | S _ => then_
    end.

(** Rate-limit responses that lack the reset header, or whose remaining
    header is no number. *)
Definition no_reset_response : response :=
  {| status_code := 403;
     headers := {[ "X-RateLimit-Remaining" := "0" ]};
     json := JsonObject None |}.

Definition bad_remaining_response : response :=
  {| status_code := 403;
     headers := {[ "X-RateLimit-Remaining" := "none";
                   "X-RateLimit-Reset" := "1700000060" ]};
     json := JsonObject None |}.

(** A server that answers the first request with the first sample page
    and the later ones with [then_]; an answer without ['items']. *)
Definition first_page_then (then_ : get_outcome)
  : nat → string → get_outcome :=
  fun j _ =>
    match j with
    | O => GetResponse (ok_response (sample_page 0))
    | S _ => then_
    end.

Definition no_items_response : response :=
  {| status_code := 200; headers := ∅; json := JsonObject None |}.

(** A server that answers request [k] with the [k]-th of the given pages,
    and with an empty page after the last. *)
Definition pages_server (pages : list (list (gmap string pyval)))
  : nat → string → get_outcome :=
  fun k _ => GetResponse (ok_response (default [] (pages !! k))).

Definition listing_env (pages : list (list (gmap string pyval))) : Env :=
  canonical_env (pages_server pages) (fun _ => 0)
    (clock_at "2024-01-02T00:00:00Z") (Some "token").

(** Records without a star count, and with a null star count. *)
Definition repo_without_stars : gmap string pyval :=
  delete "stargazers_count"
    (repo_record "octo/bare" 7 0 "2023-12-24T00:00:00Z").

Definition repo_null_stars : gmap string pyval :=
  <["stargazers_count" := VNone]>
    (repo_record "octo/null" 7 0 "2023-12-24T00:00:00Z").

Definition no_token_env : Env :=
  canonical_env paged_server (fun _ => 0) (fun _ => 0) None.

Definition server_env (get : nat → string → get_outcome) : Env :=
  canonical_env get (fun _ => 1700000000)
    (clock_at "2024-01-02T00:00:00Z") (Some "token").

(** * Theorems *)

(** ** The canonical parsers on samples *)

Example strptime_iso_2023 :
  strptime_iso "2023-01-01T00:00:00Z" = Some (1672531200 * 1000000).
Proof. vm_compute. reflexivity. Qed.

Example strptime_iso_leap :
  strptime_iso "2024-02-29T12:30:15Z" = Some (1709209815 * 1000000)
  ∧ strptime_iso "2023-02-29T12:30:15Z" = None
  ∧ strptime_iso "2024-03-01" = None.
Proof. vm_compute. auto. Qed.

Example lower_header_name :
  lower "X-RateLimit-Reset" = "x-ratelimit-reset"%string
  ∧ lower "x-ratelimit_RESET-9[]" = "x-ratelimit_reset-9[]"%string.
Proof. split; reflexivity. Qed.

Example time_sleep_range env :
  (time_sleep env 4294967 world0).1 = Ret tt
  ∧ (time_sleep env 9223372037 world0).1 = Raise OverflowError
  ∧ (time_sleep env 98300000000 world0).1 = Raise OverflowError
  ∧ (time_sleep env 0 world0).1 = Ret tt
  ∧ (time_sleep env (-1) world0).1 = Raise ValueError
  ∧ (time_sleep env (-99) world0).1 = Raise ValueError
  ∧ (time_sleep env (-9223372037) world0).1 = Raise OverflowError.
Proof. repeat split. Qed.

Example decimal_examples :
  decimal "0" = Some 0 ∧ decimal "1700000000" = Some 1700000000
  ∧ decimal "-12" = Some (-12) ∧ decimal "12a" = None ∧ decimal "" = None.
Proof. vm_compute. auto. Qed.

Example search_url_default :
  search_url "stars:>100" "stars" "desc" 100
  = "https://api.github.com/search/repositories?q=stars:>100&sort=stars&order=desc&per_page=100"%string
  ∧ page_url "https://api.github.com/search/repositories?q=x" 12
    = "https://api.github.com/search/repositories?q=x&page=12"%string.
Proof. split; reflexivity. Qed.

Example slice_to_examples :
  slice_to [1; 2; 3] 2 = [1; 2] ∧ slice_to [1; 2; 3] 5 = [1; 2; 3]
  ∧ slice_to [1; 2; 3] (-1) = [1; 2] ∧ slice_to [1; 2; 3] (-7) = [].
Proof. repeat split. Qed.

Example sort_reverse_stable :
  sort_reverse (λ p : Z * string, VInt p.1)
    [(50, "a"); (200, "b"); (50, "c"); (200, "d")]%string
  = Some [(200, "b"); (200, "d"); (50, "a"); (50, "c")]%string
  ∧ sort_reverse (λ v : pyval, v) [VInt 1; VStr "x"] = None.
Proof. split; reflexivity. Qed.

(** ** Reasoning about runs *)

Lemma bind_run {A B} (m : M A) (f : A → M B) (w : world) :
  (m ≫= f) w =
    match m w with
    | (Ret a, w') => f a w'
    | (Raise e, w') => (Raise e, w')
    | (Diverge, w') => (Diverge, w')
    end.
Proof. reflexivity. Qed.

Lemma bind_ret {A B} (m : M A) (f : A → M B) (w w' : world) (a : A) :
  m w = (Ret a, w') → (m ≫= f) w = f a w'.
Proof. intros H. rewrite bind_run, H. reflexivity. Qed.

Lemma bind_raise {A B} (m : M A) (f : A → M B) (w w' : world) (e : exn) :
  m w = (Raise e, w') → (m ≫= f) w = (Raise e, w').
Proof. intros H. rewrite bind_run, H. reflexivity. Qed.

Lemma bind_diverge {A B} (m : M A) (f : A → M B) (w w' : world) :
  m w = (Diverge, w') → (m ≫= f) w = (Diverge, w').
Proof. intros H. rewrite bind_run, H. reflexivity. Qed.

(** ** The classifiers *)

Lemma no_push_date_false (d : gmap string pyval) (v : pyval) :
  d !! "pushed_at" = Some v → no_push_date (Some d) = false.
Proof.
  intros H. unfold no_push_date.
  rewrite bool_decide_eq_false_2.
  - rewrite bool_decide_eq_true_2; [reflexivity | eauto].
  - intros ->. rewrite lookup_empty in H. discriminate.
Qed.

Lemma no_push_date_true (d : gmap string pyval) :
  d !! "pushed_at" = None → no_push_date (Some d) = true.
Proof.
  intros H. unfold no_push_date.
  rewrite (bool_decide_eq_false_2 (is_Some _)).
  - apply orb_true_r.
  - rewrite H. intros [? ?]. discriminate.
Qed.

Lemma is_repo_outdated_run env (d : gmap string pyval) (s : string) (t : Z)
    (w : world) :
  d !! "pushed_at" = Some (VStr s) →
  strptime env s = Some t →
  is_repo_outdated env (Some d) w =
    (Ret (utcnow env (clock_reads w) - t
          >? timedelta_days OUTDATED_THRESHOLD_DAYS), tick w).
Proof.
  intros Hd Hs. unfold is_repo_outdated.
  rewrite (no_push_date_false d _ Hd).
  unfold getitem, datetime_strptime. rewrite bind_run, Hd. cbn.
  rewrite bind_run, Hs. reflexivity.
Qed.

Lemma is_repo_broken_run env (d : gmap string pyval) (s : string) (t n : Z)
    (w : world) :
  d !! "pushed_at" = Some (VStr s) →
  strptime env s = Some t →
  int_value (default_value (VInt 0) (d !! "open_issues_count")) = Some n →
  is_repo_broken env (Some d) w =
    (Ret ((n >? BROKEN_ISSUES_THRESHOLD)
          && (utcnow env (clock_reads w) - t
              >? timedelta_days BROKEN_THRESHOLD_DAYS)), tick w).
Proof.
  intros Hd Hs Hn. unfold is_repo_broken.
  rewrite (no_push_date_false d _ Hd).
  unfold getitem, datetime_strptime, dict_get. rewrite bind_run, Hd. cbn.
  rewrite bind_run, Hs. cbn.
  erewrite bind_ret by reflexivity. rewrite Hn. cbn.
  rewrite Z.gtb_ltb. reflexivity.
Qed.

(** C1: for a record whose [pushed_at] holds a timestamp, [is_repo_outdated]
    returns true exactly when the current time minus the time of the last
    push is strictly more than 365 days; at 365 days or less it returns
    false. *)
Theorem is_repo_outdated_iff_gap_exceeds_365_days env
    (d : gmap string pyval) (s : string) (t : Z) (w : world) :
  d !! "pushed_at" = Some (VStr s) →
  strptime env s = Some t →
  let gap := utcnow env (clock_reads w) - t in
  is_repo_outdated env (Some d) w
    = (Ret (bool_decide (365 * 86400 * 1000000 < gap)), tick w)
  ∧ (365 * 86400 * 1000000 < gap →
     is_repo_outdated env (Some d) w = (Ret true, tick w))
  ∧ (gap ≤ 365 * 86400 * 1000000 →
     is_repo_outdated env (Some d) w = (Ret false, tick w)).
Proof.
  intros Hd Hs gap.
  rewrite (is_repo_outdated_run env d s t w Hd Hs). fold gap.
  unfold timedelta_days, OUTDATED_THRESHOLD_DAYS.
  repeat split.
  - f_equal. f_equal. rewrite Z.gtb_ltb.
    case_bool_decide; [apply Z.ltb_lt | apply Z.ltb_ge]; lia.
  - intros H. do 2 f_equal. rewrite Z.gtb_ltb. apply Z.ltb_lt. lia.
  - intros H. do 2 f_equal. rewrite Z.gtb_ltb. apply Z.ltb_ge. lia.
Qed.

(** C2, as the code has it: for a record whose [pushed_at] holds a
    timestamp and whose issue count is a number, or is missing and then
    taken as 0, [is_repo_broken] returns true exactly when the count is
    strictly more than 10 and the last push is strictly more than 180 days
    back; with a count of at most 10 or a push within 180 days it returns
    false. *)
Theorem is_repo_broken_iff_issues_and_gap env
    (d : gmap string pyval) (s : string) (t n : Z) (w : world) :
  d !! "pushed_at" = Some (VStr s) →
  strptime env s = Some t →
  int_value (default_value (VInt 0) (d !! "open_issues_count")) = Some n →
  let gap := utcnow env (clock_reads w) - t in
  is_repo_broken env (Some d) w
    = (Ret (bool_decide (10 < n ∧ 180 * 86400 * 1000000 < gap)), tick w)
  ∧ (n ≤ 10 ∨ gap ≤ 180 * 86400 * 1000000 →
     is_repo_broken env (Some d) w = (Ret false, tick w)).
Proof.
  intros Hd Hs Hn gap.
  rewrite (is_repo_broken_run env d s t n w Hd Hs Hn). fold gap.
  unfold timedelta_days, BROKEN_THRESHOLD_DAYS, BROKEN_ISSUES_THRESHOLD.
  rewrite !Z.gtb_ltb. split.
  - do 2 f_equal. case_bool_decide as H.
    + destruct H as [H1 H2].
      apply andb_true_intro; split; apply Z.ltb_lt; lia.
    + apply andb_false_iff.
      destruct (decide (10 < n)) as [H1|H1].
      * right. apply Z.ltb_ge. lia.
      * left. apply Z.ltb_ge. lia.
  - intros H. do 2 f_equal. apply andb_false_iff.
    destruct H as [H|H]; [left | right]; apply Z.ltb_ge; lia.
Qed.

(** C7: for a record that is absent, empty or without [pushed_at], both
    classifiers return false; nothing is raised and nothing is read. *)
Theorem classifiers_false_without_pushed_at env
    (repo_info : option (gmap string pyval)) (w : world) :
  repo_info = None ∨ repo_info = Some ∅
  ∨ (∃ d, repo_info = Some d ∧ d !! "pushed_at" = None) →
  is_repo_outdated env repo_info w = (Ret false, w)
  ∧ is_repo_broken env repo_info w = (Ret false, w).
Proof.
  intros H.
  assert (Hn : no_push_date repo_info = true).
  { destruct H as [-> | [-> | (d & -> & Hd)]]; try reflexivity.
    by apply no_push_date_true. }
  unfold is_repo_outdated, is_repo_broken. rewrite Hn. split; reflexivity.
Qed.

(** A push on 2023-01-01 read at 2024-01-01 is exactly 365 days old: not
    outdated. *)
Lemma is_repo_outdated_at_365_days :
  is_repo_outdated (env_at "2024-01-01T00:00:00Z")
    (Some (repo_record "octo/cat" 50 3 "2023-01-01T00:00:00Z")) world0
  = (Ret false, tick world0).
Proof.
  apply (is_repo_outdated_iff_gap_exceeds_365_days
           (env_at "2024-01-01T00:00:00Z")
           (repo_record "octo/cat" 50 3 "2023-01-01T00:00:00Z")
           "2023-01-01T00:00:00Z" 1672531200000000 world0).
  - vm_compute. reflexivity.
  - vm_compute. reflexivity.
  - vm_compute. discriminate.
Defined.

(** Eleven open issues and a push 181 days back: broken. *)
Lemma is_repo_broken_at_181_days :
  is_repo_broken (env_at "2023-07-01T00:00:00Z")
    (Some (repo_record "octo/cat" 50 11 "2023-01-01T00:00:00Z")) world0
  = (Ret (bool_decide (10 < 11 ∧ 180 * 86400 * 1000000 < 181 * 86400 * 1000000)),
     tick world0).
Proof.
  apply (is_repo_broken_iff_issues_and_gap
           (env_at "2023-07-01T00:00:00Z")
           (repo_record "octo/cat" 50 11 "2023-01-01T00:00:00Z")
           "2023-01-01T00:00:00Z" 1672531200000000 11 world0).
  - vm_compute. reflexivity.
  - vm_compute. reflexivity.
  - vm_compute. reflexivity.
Defined.

(** C2 as stated fails on a record whose issue count is null: with a
    push one day back [is_repo_broken] does not return false, it raises
    [TypeError]. *)
Lemma is_repo_broken_null_count_recent_push :
  ¬ (∀ env (d : gmap string pyval) (s : string) (t : Z) (w : world),
       d !! "pushed_at" = Some (VStr s) →
       strptime env s = Some t →
       utcnow env (clock_reads w) - t ≤ 180 * 86400 * 1000000 →
       (is_repo_broken env (Some d) w).1 = Ret false).
Proof.
  intros H.
  assert (Hgap : utcnow (env_at "2024-01-02T00:00:00Z") (clock_reads world0)
                 - 1704067200000000 ≤ 180 * 86400 * 1000000)
    by (vm_compute; discriminate).
  pose proof (H (env_at "2024-01-02T00:00:00Z")
                {[ "pushed_at" := VStr "2024-01-01T00:00:00Z";
                   "open_issues_count" := VNone ]}
                "2024-01-01T00:00:00Z"%string 1704067200000000 world0
                eq_refl eq_refl Hgap) as H'.
  vm_compute in H'. discriminate.
Qed.

(** A record with a name only. *)
Lemma classifiers_false_on_name_only :
  is_repo_outdated (env_at "2024-01-01T00:00:00Z")
    (Some {[ "full_name" := VStr "octo/cat" ]}) world0 = (Ret false, world0)
  ∧ is_repo_broken (env_at "2024-01-01T00:00:00Z")
    (Some {[ "full_name" := VStr "octo/cat" ]}) world0 = (Ret false, world0).
Proof.
  apply (classifiers_false_without_pushed_at
           (env_at "2024-01-01T00:00:00Z")
           (Some {[ "full_name" := VStr "octo/cat" ]}) world0).
  right. right. eexists. split; [reflexivity | vm_compute; reflexivity].
Defined.

(** ** make_request *)

Lemma make_request_unfold env (fuel : nat) (url : string) (r : nat) :
  make_request env (S fuel) url r =
    try_except (try_block env url (make_request env fuel url 0))
      (fun e =>
         if (r <? MAX_RETRIES)%nat then
           time_sleep env (2 ^ Z.of_nat r) ;; make_request env fuel url (S r)
         else raise (RequestException e)).
Proof. reflexivity. Qed.

Lemma int_header_run env (r : response) (key s : string) (n : Z) (w : world) :
  headers r !! key = Some s → int_of_str env s = Some n →
  int_header env r key w = (Ret n, w).
Proof.
  intros Hh Hn. unfold int_header. rewrite bind_run, Hh. cbn.
  rewrite Hn. reflexivity.
Qed.

Lemma try_block_fails env (url : string) (again : M response) (w : world)
    (e : request_error) :
  request_fails env (http_get env (length (requested w)) url) e →
  try_block env url again w = (Raise (RequestException e), log_request url w).
Proof.
  intros H. unfold try_block. rewrite bind_run. unfold requests_get.
  inversion H as [msg Hm | r [Hlo Hhi] Hnot Hr | r s n Hst Hh Hn Hne Hr];
    subst; try reflexivity.
  - assert (Herr : (400 <=? status_code r) && (status_code r <? 600) = true).
    { apply andb_true_intro. split; [apply Z.leb_le | apply Z.ltb_lt]; lia. }
    assert (Hc : (status_code r =? 403)
                 && bool_decide (is_Some (headers r !! "X-RateLimit-Remaining"))
                 = false).
    { apply andb_false_iff.
      destruct (Z.eqb_spec (status_code r) 403) as [E|E]; [right | by left].
      apply bool_decide_eq_false_2. intros Hs. apply Hnot. by split. }
    rewrite Hc. rewrite bind_run. unfold raise_for_status. rewrite Herr.
    reflexivity.
  - rewrite Hst. rewrite bool_decide_eq_true_2 by eauto. cbn [andb Z.eqb Pos.eqb].
    rewrite (bind_ret _ _ _ _ _ (int_header_run env r _ s n _ Hh Hn)).
    destruct (Z.eqb_spec n 0) as [E|E]; [done |].
    rewrite bind_run. unfold raise_for_status. rewrite Hst. reflexivity.
Qed.

Lemma length_requested_log_request (url : string) (w : world) :
  length (requested (log_request url w)) = S (length (requested w)).
Proof. cbn. rewrite length_app. cbn. lia. Qed.

Lemma try_block_rate_limited env (url : string) (again : M response)
    (w : world) (reset : Z) :
  rate_limited env (http_get env (length (requested w)) url) reset →
  try_block env url again w =
    (time_sleep env (reset - time_time env (S (length (requested w))) + 1)
       ≫= λ _, again) (log_request url w).
Proof.
  intros (r & s & s' & Hr & Hst & Hh & Hn & Hh' & Hn').
  unfold try_block. rewrite bind_run. unfold requests_get. rewrite Hr.
  rewrite Hst. rewrite bool_decide_eq_true_2 by eauto. cbn [andb Z.eqb Pos.eqb].
  rewrite (bind_ret _ _ _ _ _ (int_header_run env r _ s 0 _ Hh Hn)).
  cbn [Z.eqb].
  rewrite (bind_ret _ _ _ _ _ (int_header_run env r _ s' reset _ Hh' Hn')).
  rewrite bind_run. unfold time_now.
  rewrite length_requested_log_request. reflexivity.
Qed.

Lemma make_request_fails_step env (fuel : nat) (url : string) (r : nat)
    (w : world) (e : request_error) :
  request_fails env (http_get env (length (requested w)) url) e →
  make_request env (S fuel) url r w =
    if (r <? MAX_RETRIES)%nat
    then (time_sleep env (2 ^ Z.of_nat r) ≫= λ _, make_request env fuel url (S r))
           (log_request url w)
    else (Raise (RequestException e), log_request url w).
Proof.
  intros H. rewrite make_request_unfold. unfold try_except.
  rewrite (try_block_fails env url _ w e H).
  destruct (r <? MAX_RETRIES)%nat; reflexivity.
Qed.

Lemma time_sleep_run env (secs : Z) (w : world) :
  0 ≤ secs ≤ SLEEP_SAFE → time_sleep env secs w = (Ret tt, log_sleep secs w).
Proof.
  intros H. unfold time_sleep. unfold SLEEP_SAFE in H.
  destruct (Z.ltb_spec secs (- SLEEP_MAX)); [unfold SLEEP_MAX in *; lia |].
  destruct (Z.ltb_spec SLEEP_MAX secs); [unfold SLEEP_MAX in *; lia |].
  destruct (Z.ltb_spec secs 0); [lia |].
  destruct (Z.leb_spec secs SLEEP_SAFE); [reflexivity |].
  unfold SLEEP_SAFE in *. lia.
Qed.

(** C5: when every attempt at a URL ends in a request-level exception,
    [make_request] sleeps [2^k] seconds before retry [k+1] (1, 2 and 4
    seconds), makes 3 retries, which is 4 attempts in all, and then lets the
    exception of the last attempt reach the caller. *)
Theorem make_request_backoff_then_propagates env (url : string) (w : world)
    (fuel : nat) (err : nat → request_error) :
  (∀ k, request_fails env (http_get env k url) (err k)) →
  (S MAX_RETRIES ≤ fuel)%nat →
  make_request env fuel url 0 w =
    (Raise (RequestException (err (length (requested w) + 3)%nat)),
     {| requested := requested w ++ [url; url; url; url];
        slept := slept w ++ [2 ^ 0; 2 ^ 1; 2 ^ 2];
        clock_reads := clock_reads w;
        saved := saved w |}).
Proof.
  intros Hfail Hfuel. unfold MAX_RETRIES in Hfuel.
  do 4 (destruct fuel as [|fuel]; [lia |]). clear Hfuel.
  rewrite (make_request_fails_step env _ url 0 w _ (Hfail _)).
  cbn [Nat.ltb Nat.leb MAX_RETRIES].
  rewrite (bind_ret _ _ _ _ _ (time_sleep_run env (2 ^ Z.of_nat 0) _
               ltac:(unfold SLEEP_SAFE; cbn; lia))).
  rewrite (make_request_fails_step env _ url 1 _ _ (Hfail _)).
  cbn [Nat.ltb Nat.leb MAX_RETRIES].
  rewrite (bind_ret _ _ _ _ _ (time_sleep_run env (2 ^ Z.of_nat 1) _
               ltac:(unfold SLEEP_SAFE; cbn; lia))).
  rewrite (make_request_fails_step env _ url 2 _ _ (Hfail _)).
  cbn [Nat.ltb Nat.leb MAX_RETRIES].
  rewrite (bind_ret _ _ _ _ _ (time_sleep_run env (2 ^ Z.of_nat 2) _
               ltac:(unfold SLEEP_SAFE; cbn; lia))).
  rewrite (make_request_fails_step env _ url 3 _ _ (Hfail _)).
  cbn [Nat.ltb Nat.leb MAX_RETRIES].
  f_equal.
  - do 3 f_equal. cbn. rewrite !length_app. cbn. lia.
  - unfold log_request, log_sleep. cbn. f_equal.
    + rewrite <- !app_assoc. reflexivity.
    + rewrite <- !app_assoc. reflexivity.
Qed.

Lemma make_request_backoff_offline :
  make_request (env_at "2024-01-01T00:00:00Z") 4
    "https://api.github.com/rate_limit" 0 world0 =
  (Raise (RequestException (ConnectionError "connection refused")),
   {| requested := replicate 4 "https://api.github.com/rate_limit";
      slept := [1; 2; 4]; clock_reads := 0; saved := [] |}).
Proof.
  apply (make_request_backoff_then_propagates
           (env_at "2024-01-01T00:00:00Z") "https://api.github.com/rate_limit"
           world0 4 (fun _ => ConnectionError "connection refused")).
  - intros k. apply fails_connection.
  - unfold MAX_RETRIES. lia.
Defined.

Lemma after_waits_requested env url reset (n k : nat) (w : world) :
  requested (after_waits env url reset n k w)
  = requested w ++ replicate n url.
Proof.
  revert k w. induction n as [|n IH]; intros k w; cbn [after_waits].
  - by rewrite app_nil_r.
  - rewrite IH. cbn. by rewrite <- app_assoc.
Qed.

Lemma after_waits_slept env url reset (n k : nat) (w : world) :
  slept (after_waits env url reset n k w)
  = slept w ++ map (λ j, reset j - time_time env (S j) + 1) (seq k n).
Proof.
  revert k w. induction n as [|n IH]; intros k w; cbn [after_waits].
  - by rewrite app_nil_r.
  - rewrite IH. cbn. by rewrite <- app_assoc.
Qed.

(** With waits that [time.sleep] is sure to take (not negative, at most
    [SLEEP_SAFE] seconds), a server that always answers
    with a rate-limit response keeps the recursion of [make_request] going:
    each level makes one request and one wait and calls the next, the
    retry counter back at zero, so that a budget of [fuel] levels is used
    up without a result.  Nothing in the code ends this recursion; the
    interpreter does, with [RecursionError] at its depth limit, which this
    model leaves out. *)
Lemma make_request_rate_limited_diverges env (url : string)
    (reset : nat → Z) :
  (∀ k, rate_limited env (http_get env k url) (reset k)) →
  (∀ k, 0 ≤ reset k - time_time env (S k) + 1 ≤ SLEEP_SAFE) →
  ∀ (fuel r : nat) (w : world),
    make_request env fuel url r w =
      (Diverge, after_waits env url reset fuel (length (requested w)) w).
Proof.
  intros Hlim Hclock fuel.
  induction fuel as [|fuel IH]; intros r w; [reflexivity |].
  rewrite make_request_unfold. unfold try_except.
  rewrite (try_block_rate_limited env url _ w _ (Hlim _)).
  rewrite (bind_ret _ _ _ _ _
             (time_sleep_run env
                (reset (length (requested w))
                 - time_time env (S (length (requested w))) + 1)
                (log_request url w)
                (Hclock (length (requested w))))).
  rewrite IH. cbn [after_waits]. do 2 f_equal.
  cbn. rewrite length_app. cbn. lia.
Qed.

Lemma always_limited_is_rate_limited (reset : string) (n : Z) (time utc : nat → Z)
    (token : option string) (k : nat) (url : string) :
  decimal reset = Some n →
  rate_limited (canonical_env (always_limited reset) time utc token)
    (http_get (canonical_env (always_limited reset) time utc token) k url) n.
Proof.
  intros H. exists (limited_response reset), "0"%string, reset.
  repeat split; try reflexivity. exact H.
Qed.

(** With the reset 60 seconds ahead, five levels of budget are five
    requests and five waits of 61 seconds, and no result. *)
Example make_request_fresh_limit_5 :
  make_request fresh_limit_env 5 "https://api.github.com/rate_limit" 0 world0
  = (Diverge,
     {| requested := replicate 5 "https://api.github.com/rate_limit";
        slept := replicate 5 61; clock_reads := 0; saved := [] |}).
Proof.
  rewrite (make_request_rate_limited_diverges fresh_limit_env
             "https://api.github.com/rate_limit" (fun _ => 1700000060)).
  - reflexivity.
  - intros k. by apply always_limited_is_rate_limited.
  - intros k. unfold SLEEP_SAFE. cbn. lia.
Qed.

(** C6: a server that answers every request with status forbidden and
    rate-limit-remaining zero, its reset 100 seconds behind the local clock.
    [make_request] does not wait and ask again: the wait computed is
    negative, [time.sleep] raises [ValueError], and the call ends after a
    single request, whatever its budget. *)
Theorem make_request_stale_reset_raises :
  (∀ k url, forbidden_zero_remaining stale_limit_env
              (http_get stale_limit_env k url))
  ∧ ∀ fuel,
      make_request stale_limit_env (S fuel)
        "https://api.github.com/rate_limit" 0 world0
      = (Raise ValueError,
         {| requested := ["https://api.github.com/rate_limit"%string];
            slept := []; clock_reads := 0; saved := [] |}).
Proof.
  split.
  - intros k url. exists (limited_response "1700000000"), "0"%string.
    repeat split; reflexivity.
  - intros fuel. rewrite make_request_unfold. reflexivity.
Qed.

(** ** search_repos *)

Lemma search_page_run env (fuel : nat) (url : string) (max_repos : Z)
    (all_repos : list (gmap string pyval)) (page : Z) (w : world) :
  search_page env fuel url max_repos all_repos page w =
    match fetch_items env fuel url page w with
    | (Ret [], w') => (Ret (Break all_repos), w')
    | (Ret repos, w') =>
      if Z.of_nat (length (all_repos ++ repos)) >=? max_repos
      then (Ret (Break (all_repos ++ repos)), w')
      else (Ret (Continue (all_repos ++ repos) (page + 1)), w')
    | (Raise (RequestException e), w') => (Ret (Break all_repos), w')
    | (Raise e, w') => (Raise e, w')
    | (Diverge, w') => (Diverge, w')
    end.
Proof.
  unfold search_page, try_except, fetch_items. rewrite !bind_run.
  destruct (make_request env fuel (page_url url page) 0 w) as [[r|e|] w'];
    [| by destruct e | done].
  unfold json_items. destruct (json r) as [|[items|]]; try reflexivity.
  destruct items as [|repo items]; [reflexivity |].
  rewrite bind_run. cbn [ret fst snd].
  destruct (Z.of_nat (length (all_repos ++ repo :: items)) >=? max_repos);
    reflexivity.
Qed.

Lemma search_loop_done env (iters fuel : nat) (url : string) (max_repos : Z)
    (all_repos : list (gmap string pyval)) (page : Z) (w : world) :
  max_repos ≤ Z.of_nat (length all_repos) →
  search_loop env iters fuel url max_repos all_repos page w
  = (Ret all_repos, w).
Proof.
  intros H. destruct iters; cbn [search_loop];
    destruct (Z.ltb_spec (Z.of_nat (length all_repos)) max_repos);
    try lia; reflexivity.
Qed.

Lemma search_loop_step env (iters fuel : nat) (url : string) (max_repos : Z)
    (all_repos : list (gmap string pyval)) (page : Z) (w : world) :
  Z.of_nat (length all_repos) < max_repos →
  search_loop env (S iters) fuel url max_repos all_repos page w =
    match search_page env fuel url max_repos all_repos page w with
    | (Ret (Break all_repos'), w') => (Ret all_repos', w')
    | (Ret (Continue all_repos' page'), w') =>
      search_loop env iters fuel url max_repos all_repos' page' w'
    | (Raise e, w') => (Raise e, w')
    | (Diverge, w') => (Diverge, w')
    end.
Proof.
  intros H. cbn [search_loop].
  destruct (Z.ltb_spec (Z.of_nat (length all_repos)) max_repos); [| lia].
  rewrite bind_run.
  destruct (search_page env fuel url max_repos all_repos page w)
    as [[[?|? ?]|?|] ?]; reflexivity.
Qed.

Lemma slice_to_length {A} (l : list A) (n : Z) :
  0 ≤ n → Z.of_nat (length (slice_to l n)) ≤ n.
Proof.
  intros H. unfold slice_to. destruct (Z.ltb_spec n 0); [lia |].
  rewrite length_take. lia.
Qed.

Lemma slice_to_short {A} (l : list A) (n : Z) :
  Z.of_nat (length l) ≤ n → slice_to l n = l.
Proof.
  intros H. unfold slice_to. destruct (Z.ltb_spec n 0); [lia |].
  apply take_ge. lia.
Qed.

Lemma search_repos_run env (fuel : nat) (query sort order : string)
    (per_page max_repos : Z) (w : world) :
  search_repos env fuel query sort order per_page max_repos w =
    match search_loop env fuel fuel (search_url query sort order per_page)
            max_repos [] 1 w with
    | (Ret all_repos, w') => (Ret (slice_to all_repos max_repos), w')
    | (Raise e, w') => (Raise e, w')
    | (Diverge, w') => (Diverge, w')
    end.
Proof. unfold search_repos. rewrite bind_run. reflexivity. Qed.

Lemma search_repos_nothing_wanted env (fuel : nat)
    (query sort order : string) (per_page max_repos : Z) (w : world) :
  max_repos ≤ 0 →
  search_repos env fuel query sort order per_page max_repos w = (Ret [], w).
Proof.
  intros H. rewrite search_repos_run.
  rewrite search_loop_done by (cbn; lia).
  unfold slice_to. by rewrite !take_nil, Tauto.if_same.
Qed.

Lemma make_request_ok env (fuel : nat) (url : string) (retry_count : nat)
    (w : world) (r : response) :
  http_get env (length (requested w)) url = GetResponse r →
  ¬ (400 ≤ status_code r < 600) →
  make_request env (S fuel) url retry_count w = (Ret r, log_request url w).
Proof.
  intros Hget Hst. rewrite make_request_unfold. unfold try_except, try_block.
  rewrite bind_run. unfold requests_get. rewrite Hget.
  assert (Hc : (status_code r =? 403) = false) by (apply Z.eqb_neq; lia).
  rewrite Hc. cbn [andb]. rewrite bind_run. unfold raise_for_status.
  assert (He : (400 <=? status_code r) && (status_code r <? 600) = false).
  { apply andb_false_iff.
    destruct (Z.leb_spec 400 (status_code r)); [right | by left].
    apply Z.ltb_ge. lia. }
  rewrite He. reflexivity.
Qed.

Lemma fetch_items_ok env (fuel : nat) (url : string) (page : Z) (w : world)
    (r : response) (items : list (gmap string pyval)) :
  http_get env (length (requested w)) (page_url url page) = GetResponse r →
  ¬ (400 ≤ status_code r < 600) →
  json r = JsonObject (Some items) →
  fetch_items env (S fuel) url page w
  = (Ret items, log_request (page_url url page) w).
Proof.
  intros Hget Hst Hj. unfold fetch_items.
  rewrite (bind_ret _ _ _ _ _ (make_request_ok env fuel _ 0 w r Hget Hst)).
  unfold json_items. rewrite Hj. reflexivity.
Qed.

Lemma fetch_items_no_diverge env (fuel : nat) (url : string) (page : Z)
    (w : world) :
  (∀ u w0, (make_request env fuel u 0 w0).1 ≠ Diverge) →
  (fetch_items env fuel url page w).1 ≠ Diverge.
Proof.
  intros H. unfold fetch_items. rewrite bind_run.
  specialize (H (page_url url page) w).
  destruct (make_request env fuel (page_url url page) 0 w) as [[r|e|] w'];
    [| done | done].
  unfold json_items. by destruct (json r) as [|[?|]].
Qed.

Lemma search_loop_no_diverge env (fuel : nat) (url : string) (max_repos : Z) :
  (∀ u w0, (make_request env fuel u 0 w0).1 ≠ Diverge) →
  ∀ (iters : nat) (all_repos : list (gmap string pyval)) (page : Z)
    (w : world),
    (Z.to_nat (max_repos - Z.of_nat (length all_repos)) ≤ iters)%nat →
    (search_loop env iters fuel url max_repos all_repos page w).1 ≠ Diverge.
Proof.
  intros Hreq iters. induction iters as [|iters IH]; intros all_repos page w Hi.
  - rewrite search_loop_done by lia. done.
  - destruct (Z.lt_ge_cases (Z.of_nat (length all_repos)) max_repos)
      as [Hlt|Hge]; [| by rewrite search_loop_done].
    rewrite search_loop_step by done. rewrite search_page_run.
    pose proof (fetch_items_no_diverge env fuel url page w Hreq) as Hf.
    destruct (fetch_items env fuel url page w) as [[items|e|] w'];
      [| by destruct e | done].
    destruct items as [|repo items]; [done |].
    destruct (_ >=? _); [done |].
    apply IH. rewrite length_app. cbn [length]. lia.
Qed.

Lemma search_loop_error_after_pages env (fuel : nat) (url : string)
    (max_repos : Z) (ps : list (list (gmap string pyval))) :
  ∀ (iters : nat) (all_repos : list (gmap string pyval)) (page : Z)
    (w w1 w2 : world) (e : request_error),
    pages_fetched env fuel url page w ps w1 →
    Z.of_nat (length (all_repos ++ concat ps)) < max_repos →
    fetch_items env fuel url (page + Z.of_nat (length ps)) w1
      = (Raise (RequestException e), w2) →
    (length ps < iters)%nat →
    search_loop env iters fuel url max_repos all_repos page w
    = (Ret (all_repos ++ concat ps), w2).
Proof.
  induction ps as [|items ps IH];
    intros iters all_repos page w w1 w2 e Hf Hlen Herr Hi;
    inversion Hf; subst; (destruct iters as [|iters]; [cbn in Hi; lia |]).
  - cbn [concat] in *. rewrite app_nil_r in *.
    rewrite search_loop_step by done. rewrite search_page_run.
    cbn [length] in Herr. rewrite Z.add_0_r in Herr. by rewrite Herr.
  - cbn [concat] in *. rewrite app_assoc in *.
    rewrite search_loop_step
      by (rewrite !length_app in *; lia).
    rewrite search_page_run.
    match goal with H : fetch_items _ _ _ page w = _ |- _ => rewrite H end.
    destruct items as [|repo items]; [done |].
    destruct (Z.geb_spec (Z.of_nat (length (all_repos ++ repo :: items)))
                max_repos) as [Hge|Hlt].
    { rewrite !length_app in *. lia. }
    eapply IH; eauto.
    + replace (page + 1 + Z.of_nat (length ps))
        with (page + Z.of_nat (length ((repo :: items) :: ps)))
        by (cbn [length]; lia).
      exact Herr.
    + cbn [length] in Hi. lia.
Qed.

(** C3, as the code has it: a sequence that [search_repos] returns is no
    longer than the requested maximum, or empty when the maximum is
    negative; with a budget of at least the maximum it returns or raises
    whenever its requests do; and when the first page holds 100 items and
    the maximum is 5, it returns exactly the first 5 items of that page
    after a single request. *)
Theorem search_repos_truncates env :
  (∀ fuel query sort order per_page max_repos w l w',
     search_repos env fuel query sort order per_page max_repos w = (Ret l, w') →
     Z.of_nat (length l) ≤ Z.max 0 max_repos)
  ∧ (∀ fuel query sort order per_page max_repos w,
       (Z.to_nat max_repos ≤ fuel)%nat →
       (∀ u w0, (make_request env fuel u 0 w0).1 ≠ Diverge) →
       (search_repos env fuel query sort order per_page max_repos w).1
         ≠ Diverge)
  ∧ (∀ fuel query w r page1,
       let u := page_url (search_url query "stars" "desc" 100) 1 in
       http_get env (length (requested w)) u = GetResponse r →
       ¬ (400 ≤ status_code r < 600) →
       json r = JsonObject (Some page1) →
       length page1 = 100%nat →
       (0 < fuel)%nat →
       search_repos env fuel query "stars" "desc" 100 5 w
       = (Ret (take 5 page1), log_request u w)).
Proof.
  split; [| split].
  - intros fuel query sort order per_page max_repos w l w' H.
    destruct (Z.le_gt_cases max_repos 0) as [Hle|Hgt].
    + rewrite search_repos_nothing_wanted in H by done.
      injection H as <- _. cbn. lia.
    + rewrite search_repos_run in H.
      destruct (search_loop _ _ _ _ _ _ _ _) as [[all_repos|?|] ?];
        try discriminate.
      injection H as <- _.
      pose proof (slice_to_length all_repos max_repos). lia.
  - intros fuel query sort order per_page max_repos w Hfuel Hreq.
    rewrite search_repos_run.
    pose proof (search_loop_no_diverge env fuel
                  (search_url query sort order per_page) max_repos Hreq
                  fuel [] 1 w) as H.
    destruct (search_loop _ _ _ _ _ _ _ _) as [[all_repos|?|] ?];
      [done | done |].
    exfalso. apply H; [cbn [length]; lia | done].
  - intros fuel query w r page1 u Hget Hst Hj Hlen Hfuel.
    destruct fuel as [|fuel]; [lia |].
    rewrite search_repos_run, search_loop_step by (cbn; lia).
    rewrite search_page_run.
    rewrite (fetch_items_ok env fuel _ 1 w r page1 Hget Hst Hj).
    destruct page1 as [|repo page1]; [discriminate |].
    destruct (Z.geb_spec (Z.of_nat (length ([] ++ repo :: page1))) 5)
      as [_|Hlt].
    + reflexivity.
    + cbn [app] in Hlt. rewrite Hlen in Hlt. lia.
Qed.

(** Against the server of 100-record pages: a maximum of 250 with a budget
    of 250 does not run out, and a maximum of 5 yields records 0 to 4 after
    one request. *)
Lemma search_repos_five_of_first_page :
  (search_repos paged_env 250 "stars:>100" "stars" "desc" 100 250 world0).1
    ≠ Diverge
  ∧ search_repos paged_env 1 "stars:>100" "stars" "desc" 100 5 world0
    = (Ret (take 5 (sample_page 0)),
       log_request (page_url (search_url "stars:>100" "stars" "desc" 100) 1)
         world0).
Proof.
  split.
  - apply (proj1 (proj2 (search_repos_truncates paged_env)) 250%nat
             "stars:>100" "stars" "desc" 100 250 world0).
    + lia.
    + intros u w0.
      rewrite (make_request_ok paged_env 249 u 0 w0
                 (ok_response (sample_page (length (requested w0))))
                 eq_refl); [done | cbn; lia].
  - apply (proj2 (proj2 (search_repos_truncates paged_env)) 1%nat
             "stars:>100" world0 (ok_response (sample_page 0))
             (sample_page 0)).
    + reflexivity.
    + cbn. lia.
    + reflexivity.
    + reflexivity.
    + lia.
Defined.

(** C3 as stated fails at a negative maximum: the result is empty, and its
    length 0 is more than the maximum. *)
Lemma search_repos_negative_maximum :
  ¬ (∀ env fuel query sort order per_page max_repos w l w',
       search_repos env fuel query sort order per_page max_repos w
         = (Ret l, w') →
       Z.of_nat (length l) ≤ max_repos).
Proof.
  intros H.
  specialize (H paged_env 1%nat "stars:>100"%string "stars"%string
                "desc"%string 100 (-1) world0 [] world0 eq_refl).
  cbn in H. lia.
Qed.

(** C10: with a maximum of zero or less, [search_repos] returns the empty
    list and issues no request: the world is as it was. *)
Theorem search_repos_nonpositive_maximum env (fuel : nat)
    (query sort order : string) (per_page max_repos : Z) (w : world) :
  max_repos ≤ 0 →
  search_repos env fuel query sort order per_page max_repos w = (Ret [], w).
Proof. apply search_repos_nothing_wanted. Qed.

Lemma search_repos_maximum_zero :
  search_repos paged_env 0 "stars:>100" "stars" "desc" 100 0 world0
  = (Ret [], world0).
Proof.
  apply (search_repos_nonpositive_maximum paged_env 0 "stars:>100" "stars"
           "desc" 100 0 world0).
  lia.
Defined.

(** C4: when pages 1 to n-1 have been collected, with fewer items than the
    maximum, and fetching page n ends in a request-level exception,
    [search_repos] returns the items of pages 1 to n-1, all of them, as a
    normal result. *)
Theorem search_repos_partial_on_error env (fuel : nat)
    (query sort order : string) (per_page max_repos : Z)
    (ps : list (list (gmap string pyval))) (w w1 w2 : world)
    (e : request_error) :
  let url := search_url query sort order per_page in
  pages_fetched env fuel url 1 w ps w1 →
  Z.of_nat (length (concat ps)) < max_repos →
  fetch_items env fuel url (1 + Z.of_nat (length ps)) w1
    = (Raise (RequestException e), w2) →
  (length ps < fuel)%nat →
  search_repos env fuel query sort order per_page max_repos w
    = (Ret (slice_to (concat ps) max_repos), w2)
  ∧ slice_to (concat ps) max_repos = concat ps.
Proof.
  intros url Hf Hlen Herr Hfuel. rewrite search_repos_run. fold url.
  rewrite (search_loop_error_after_pages env fuel url max_repos ps fuel []
             1 w w1 w2 e Hf Hlen Herr Hfuel).
  split; [reflexivity |]. apply slice_to_short. lia.
Qed.

(** The server is gone after page 1: the 100 records of page 1 come back,
    after one request for page 1 and four for page 2. *)
Lemma search_repos_error_on_page_2 :
  search_repos one_page_env 5 "stars:>100" "stars" "desc" 100 1000 world0
    = (Ret (slice_to (concat [sample_page 0]) 1000),
       {| requested :=
            page_url (search_url "stars:>100" "stars" "desc" 100) 1
            :: replicate 4
                 (page_url (search_url "stars:>100" "stars" "desc" 100) 2);
          slept := [1; 2; 4]; clock_reads := 0; saved := [] |})
  ∧ slice_to (concat [sample_page 0]) 1000 = sample_page 0.
Proof.
  rewrite <- (app_nil_r (sample_page 0)) at 3.
  apply (search_repos_partial_on_error one_page_env 5 "stars:>100" "stars"
           "desc" 100 1000 [sample_page 0] world0
           (log_request
              (page_url (search_url "stars:>100" "stars" "desc" 100) 1)
              world0)
           _ (ConnectionError "connection reset")).
  - eapply fetched_more; [| | apply fetched_none].
    + reflexivity.
    + discriminate.
  - cbn [concat]. rewrite app_nil_r. unfold sample_page.
    rewrite length_map, length_seq. lia.
  - reflexivity.
  - cbn. lia.
Defined.

(** ** check_repository *)

Ltac in_required := unfold required_fields; rewrite !elem_of_cons; tauto.

Lemma getitem_run (d : gmap string pyval) (key : string) (w : world) :
  getitem (Some d) key w =
    match d !! key with
    | Some v => (Ret v, w)
    | None => (Raise (KeyError key), w)
    end.
Proof. unfold getitem. by destruct (d !! key). Qed.

Lemma check_repository_run env (d : gmap string pyval) (w : world)
    (v1 v2 v3 v4 v5 v6 : pyval) :
  d !! "full_name" = Some v1 → d !! "html_url" = Some v2 →
  d !! "stargazers_count" = Some v3 → d !! "open_issues_count" = Some v4 →
  d !! "pushed_at" = Some v5 → d !! "created_at" = Some v6 →
  check_repository env (Some d) w =
    (o ← is_repo_outdated env (Some d) ;
     b ← is_repo_broken env (Some d) ;
     mret {| name := v1; url := v2;
             description := default_value (VStr "") (d !! "description");
             stars := v3; open_issues := v4; last_push := v5;
             created_at := v6; is_outdated := o; is_broken := b |}) w.
Proof.
  intros H1 H2 H3 H4 H5 H6. unfold check_repository.
  rewrite bind_run, getitem_run, H1.
  rewrite bind_run, getitem_run, H2.
  rewrite bind_run. cbn [dict_get mret M_ret ret].
  rewrite bind_run, getitem_run, H3.
  rewrite bind_run, getitem_run, H4.
  rewrite bind_run, getitem_run, H5.
  rewrite bind_run, getitem_run, H6.
  reflexivity.
Qed.

(** C8: [check_repository] raises [KeyError] when one of [full_name],
    [html_url], [stargazers_count], [open_issues_count], [pushed_at] and
    [created_at] is missing (the first missing one is named, and nothing has
    been read by then); with all six present it builds one record from them,
    from the [description] (an empty string when missing) and from the
    answers of both classifiers. *)
Theorem check_repository_required_fields env (d : gmap string pyval)
    (w : world) :
  ((∃ k, k ∈ required_fields ∧ d !! k = None) →
   ∃ k, k ∈ required_fields ∧ d !! k = None
        ∧ check_repository env (Some d) w = (Raise (KeyError k), w))
  ∧ (∀ v1 v2 v3 v4 v5 v6,
       d !! "full_name" = Some v1 → d !! "html_url" = Some v2 →
       d !! "stargazers_count" = Some v3 →
       d !! "open_issues_count" = Some v4 →
       d !! "pushed_at" = Some v5 → d !! "created_at" = Some v6 →
       check_repository env (Some d) w =
         (o ← is_repo_outdated env (Some d) ;
          b ← is_repo_broken env (Some d) ;
          mret {| name := v1; url := v2;
                  description := default_value (VStr "") (d !! "description");
                  stars := v3; open_issues := v4; last_push := v5;
                  created_at := v6; is_outdated := o; is_broken := b |}) w)
  ∧ (∀ v1 v2 v3 v4 s v6 t n,
       d !! "full_name" = Some v1 → d !! "html_url" = Some v2 →
       d !! "stargazers_count" = Some v3 →
       d !! "open_issues_count" = Some v4 →
       d !! "pushed_at" = Some (VStr s) → d !! "created_at" = Some v6 →
       strptime env s = Some t → int_value v4 = Some n →
       check_repository env (Some d) w =
         (Ret {| name := v1; url := v2;
                 description := default_value (VStr "") (d !! "description");
                 stars := v3; open_issues := v4; last_push := VStr s;
                 created_at := v6;
                 is_outdated :=
                   utcnow env (clock_reads w) - t >? timedelta_days 365;
                 is_broken :=
                   (n >? 10)
                   && (utcnow env (S (clock_reads w)) - t
                       >? timedelta_days 180) |},
          tick (tick w))).
Proof.
  split; [| split].
  - intros (k & Hk & Hnone).
    unfold check_repository.
    destruct (d !! "full_name") eqn:H1; cycle 1.
    { exists "full_name"%string. split; [in_required |]. split; [done |].
      by rewrite bind_run, getitem_run, H1. }
    destruct (d !! "html_url") eqn:H2; cycle 1.
    { exists "html_url"%string. split; [in_required |]. split; [done |].
      rewrite bind_run, getitem_run, H1.
      by rewrite bind_run, getitem_run, H2. }
    destruct (d !! "stargazers_count") eqn:H3; cycle 1.
    { exists "stargazers_count"%string. split; [in_required |].
      split; [done |].
      rewrite bind_run, getitem_run, H1.
      rewrite bind_run, getitem_run, H2.
      rewrite bind_run. cbn [dict_get mret M_ret ret].
      by rewrite bind_run, getitem_run, H3. }
    destruct (d !! "open_issues_count") eqn:H4; cycle 1.
    { exists "open_issues_count"%string. split; [in_required |].
      split; [done |].
      rewrite bind_run, getitem_run, H1.
      rewrite bind_run, getitem_run, H2.
      rewrite bind_run. cbn [dict_get mret M_ret ret].
      rewrite bind_run, getitem_run, H3.
      by rewrite bind_run, getitem_run, H4. }
    destruct (d !! "pushed_at") eqn:H5; cycle 1.
    { exists "pushed_at"%string. split; [in_required |]. split; [done |].
      rewrite bind_run, getitem_run, H1.
      rewrite bind_run, getitem_run, H2.
      rewrite bind_run. cbn [dict_get mret M_ret ret].
      rewrite bind_run, getitem_run, H3.
      rewrite bind_run, getitem_run, H4.
      by rewrite bind_run, getitem_run, H5. }
    destruct (d !! "created_at") eqn:H6; cycle 1.
    { exists "created_at"%string. split; [in_required |]. split; [done |].
      rewrite bind_run, getitem_run, H1.
      rewrite bind_run, getitem_run, H2.
      rewrite bind_run. cbn [dict_get mret M_ret ret].
      rewrite bind_run, getitem_run, H3.
      rewrite bind_run, getitem_run, H4.
      rewrite bind_run, getitem_run, H5.
      by rewrite bind_run, getitem_run, H6. }
    exfalso. unfold required_fields in Hk.
    repeat (apply elem_of_cons in Hk as [-> | Hk]; [congruence |]).
    by apply elem_of_nil in Hk.
  - intros. by apply check_repository_run.
  - intros v1 v2 v3 v4 s v6 t n H1 H2 H3 H4 H5 H6 Hs Hn.
    rewrite (check_repository_run env d w _ _ _ _ _ _ H1 H2 H3 H4 H5 H6).
    rewrite (bind_ret _ _ _ _ _ (is_repo_outdated_run env d s t w H5 Hs)).
    assert (Hn' : int_value (default_value (VInt 0)
                               (d !! "open_issues_count")) = Some n)
      by (by rewrite H4).
    rewrite (bind_ret _ _ _ _ _
               (is_repo_broken_run env d s t n (tick w) H5 Hs Hn')).
    reflexivity.
Qed.

Lemma check_repository_samples :
  (∃ k, k ∈ required_fields
        ∧ ({[ "full_name" := VStr "octo/cat" ]} : gmap string pyval) !! k = None
        ∧ check_repository (env_at "2024-01-02T00:00:00Z")
            (Some {[ "full_name" := VStr "octo/cat" ]}) world0
          = (Raise (KeyError k), world0))
  ∧ check_repository (env_at "2024-01-02T00:00:00Z")
      (Some (repo_record "octo/cat" 50 11 "2023-01-01T00:00:00Z")) world0
    = (Ret {| name := VStr "octo/cat";
              url := VStr "https://github.com/octo/cat";
              description := VNone; stars := VInt 50; open_issues := VInt 11;
              last_push := VStr "2023-01-01T00:00:00Z";
              created_at := VStr "2015-06-01T08:00:00Z";
              is_outdated := true; is_broken := true |},
       tick (tick world0)).
Proof.
  split.
  - apply (proj1 (check_repository_required_fields
                    (env_at "2024-01-02T00:00:00Z")
                    {[ "full_name" := VStr "octo/cat" ]} world0)).
    exists "html_url"%string. split; [in_required | vm_compute; reflexivity].
  - apply (proj2 (proj2 (check_repository_required_fields
                    (env_at "2024-01-02T00:00:00Z")
                    (repo_record "octo/cat" 50 11 "2023-01-01T00:00:00Z")
                    world0))
             (VStr "octo/cat") (VStr "https://github.com/octo/cat")
             (VInt 50) (VInt 11) "2023-01-01T00:00:00Z"
             (VStr "2015-06-01T08:00:00Z") 1672531200000000 11);
      vm_compute; reflexivity.
Defined.

(** ** Sorting and main *)

Lemma stars_desc_trans (a b c : AnalysisResult) :
  stars_desc a b → stars_desc b c → stars_desc a c.
Proof.
  intros (x & y & Hx & Hy & Hxy) (y' & z & Hy' & Hz & Hyz).
  exists x, z. rewrite Hy in Hy'. injection Hy' as <-.
  repeat split; [done | done | lia].
Qed.

Lemma insert_desc_sorted (x : AnalysisResult) (l : list AnalysisResult) :
  is_Some (star_count x) →
  Forall (λ y, is_Some (star_count y)) l →
  StronglySorted stars_desc l →
  ∃ l', insert_desc stars x l = Some l'
        ∧ Permutation (x :: l) l' ∧ StronglySorted stars_desc l'.
Proof.
  intros [kx Hx] Hl Hs.
  induction Hl as [|y l [ky Hy] Hl IH]; cbn [insert_desc].
  - exists [x]. repeat split; [done |]. repeat constructor.
  - apply StronglySorted_inv in Hs as [Hs Hy_l].
    unfold star_count in Hx, Hy. unfold py_lt. rewrite Hx, Hy. cbn.
    destruct (Z.ltb_spec kx ky) as [Hlt|Hge].
    + destruct (IH Hs) as (l' & -> & Hp & Hs'). cbn.
      eexists; split; [done |]. split.
      * rewrite perm_swap. by constructor.
      * constructor; [done |].
        rewrite <- Hp. constructor; [| done].
        exists ky, kx. repeat split; [done | done | lia].
    + eexists; split; [done |]. split; [done |].
      assert (Hxy : stars_desc x y)
        by (exists kx, ky; repeat split; [done | done | lia]).
      constructor; [by constructor |].
      constructor; [done |].
      eapply Forall_impl; [exact Hy_l |].
      intros z Hz. by eapply stars_desc_trans.
Qed.

Lemma sort_reverse_sorted (l : list AnalysisResult) :
  Forall (λ y, is_Some (star_count y)) l →
  ∃ s, sort_reverse stars l = Some s
       ∧ Permutation l s ∧ StronglySorted stars_desc s.
Proof.
  intros Hl. induction Hl as [|x l Hx Hl IH]; cbn [sort_reverse].
  - exists []. repeat split; [done |]. constructor.
  - destruct IH as (s & -> & Hp & Hs). cbn.
    assert (Hl' : Forall (λ y, is_Some (star_count y)) s)
      by (by rewrite <- Hp).
    destruct (insert_desc_sorted x s Hx Hl' Hs) as (s' & -> & Hp' & Hs').
    exists s'. repeat split; [| done].
    by rewrite <- Hp', Hp.
Qed.

Lemma main_run env (fuel : nat) (args : Namespace) (w w1 w2 : world)
    (repos : list (gmap string pyval)) (results rs : list AnalysisResult) :
  truthy (GITHUB_TOKEN env) = true →
  search_repos env fuel (query args) "stars" "desc" 100 (max_repos args) w
    = (Ret repos, w1) →
  check_all env repos w1 = (Ret results, w2) →
  sort_reverse stars results = Some rs →
  main env fuel args w = after_write env args rs w2.
Proof.
  intros Ht Hs Hc Hsort. unfold main. rewrite Ht. cbn [negb].
  rewrite (bind_ret _ _ _ _ _ Hs), (bind_ret _ _ _ _ _ Hc).
  rewrite Hsort. rewrite bind_run. cbn [lift_option ret].
  rewrite bind_run. unfold after_write.
  destruct (output args) as [[|a path]|]; try reflexivity.
  unfold json_dump.
  destruct (fs_write env (String a path) rs); reflexivity.
Qed.

(** C9: when the search and the reports succeed and the star counts are
    numbers, the collection [main] ends with holds the same reports, sorted
    by star count in descending order; reports with 50 and 200 stars, in
    either order, come out as the one with 200 followed by the one with
    50.  That collection is what [main] returns when no output path is
    given or when the write succeeds, and what it hands to the write when
    the write fails and [main] ends in its exception. *)
Theorem main_sorts_by_stars env (fuel : nat) (args : Namespace)
    (w w1 w2 : world) (repos : list (gmap string pyval))
    (results : list AnalysisResult) :
  truthy (GITHUB_TOKEN env) = true →
  search_repos env fuel (query args) "stars" "desc" 100 (max_repos args) w
    = (Ret repos, w1) →
  check_all env repos w1 = (Ret results, w2) →
  Forall (λ r, is_Some (star_count r)) results →
  ∃ rs, main env fuel args w = after_write env args rs w2
        ∧ Permutation results rs
        ∧ StronglySorted stars_desc rs
        ∧ (∀ a b, star_count a = Some 50 → star_count b = Some 200 →
                  results = [a; b] ∨ results = [b; a] → rs = [b; a]).
Proof.
  intros Ht Hs Hc Hnum.
  destruct (sort_reverse_sorted results Hnum) as (rs & Hsort & Hp & Hsorted).
  exists rs. split; [by eapply main_run |]. split; [done |]. split; [done |].
  intros a b Ha Hb Hres.
  assert (Hab : ¬ stars_desc a b).
  { intros (x & y & Hx & Hy & Hxy).
    rewrite Ha in Hx. rewrite Hb in Hy. injection Hx as <-.
    injection Hy as <-. lia. }
  assert (Hp' : Permutation [a; b] rs).
  { destruct Hres as [-> | ->]; [done |]. by rewrite perm_swap. }
  apply Permutation_length_2_inv in Hp' as [-> | ->]; [| done].
  apply StronglySorted_inv in Hsorted as [_ Hf].
  apply Forall_cons in Hf as [Hf _]. done.
Qed.

(** The server with a 50-star record followed by a 200-star record: the
    report of the second comes first.  With a file system that takes the
    write, the sorted collection is returned and is in [report.json]; with
    one where the path cannot be opened, [main] ends in [OSError] and
    nothing is written. *)
Lemma main_two_repos :
  main two_repo_env 2 sample_args world0
  = (Ret (Some [report_large; report_small]),
     {| requested :=
          [page_url (search_url "stars:>100" "stars" "desc" 100) 1;
           page_url (search_url "stars:>100" "stars" "desc" 100) 2];
        slept := []; clock_reads := 4;
        saved := [("report.json"%string,
                   Complete [report_large; report_small])] |})
  ∧ main (with_fs (fun _ _ => OpenFails OSError) two_repo_env) 2 sample_args
      world0
    = (Raise OSError,
       {| requested :=
            [page_url (search_url "stars:>100" "stars" "desc" 100) 1;
             page_url (search_url "stars:>100" "stars" "desc" 100) 2];
          slept := []; clock_reads := 4; saved := [] |}).
Proof.
  split.
  - destruct (main_sorts_by_stars two_repo_env 2 sample_args world0
                {| requested :=
                     [page_url (search_url "stars:>100" "stars" "desc" 100) 1;
                      page_url (search_url "stars:>100" "stars" "desc" 100) 2];
                   slept := []; clock_reads := 0; saved := [] |}
                {| requested :=
                     [page_url (search_url "stars:>100" "stars" "desc" 100) 1;
                      page_url (search_url "stars:>100" "stars" "desc" 100) 2];
                   slept := []; clock_reads := 4; saved := [] |}
                two_repos [report_small; report_large])
      as (rs & Hmain & _ & _ & Horder).
    + reflexivity.
    + reflexivity.
    + reflexivity.
    + repeat constructor; by eexists.
    + rewrite Hmain.
      rewrite (Horder report_small report_large eq_refl eq_refl
                 (or_introl eq_refl)).
      reflexivity.
  - destruct (main_sorts_by_stars
                (with_fs (fun _ _ => OpenFails OSError) two_repo_env) 2
                sample_args world0
                {| requested :=
                     [page_url (search_url "stars:>100" "stars" "desc" 100) 1;
                      page_url (search_url "stars:>100" "stars" "desc" 100) 2];
                   slept := []; clock_reads := 0; saved := [] |}
                {| requested :=
                     [page_url (search_url "stars:>100" "stars" "desc" 100) 1;
                      page_url (search_url "stars:>100" "stars" "desc" 100) 2];
                   slept := []; clock_reads := 4; saved := [] |}
                two_repos [report_small; report_large])
      as (rs & Hmain & _ & _ & Horder).
    + reflexivity.
    + reflexivity.
    + reflexivity.
    + repeat constructor; by eexists.
    + rewrite Hmain. reflexivity.
Defined.

(** * Further properties of the code *)

(** ** make_request: recovery, renewed retries, exceptions that are not
    retried *)

Lemma after_retries_requested (url : string) (rc k : nat) (w : world) :
  requested (after_retries url rc k w) = requested w ++ replicate k url.
Proof.
  revert rc w. induction k as [|k IH]; intros rc w; cbn [after_retries].
  - by rewrite app_nil_r.
  - rewrite IH. cbn. by rewrite <- app_assoc.
Qed.

Lemma after_retries_slept (url : string) (rc k : nat) (w : world) :
  slept (after_retries url rc k w)
  = slept w ++ map (λ j, 2 ^ Z.of_nat j) (seq rc k).
Proof.
  revert rc w. induction k as [|k IH]; intros rc w; cbn [after_retries].
  - by rewrite app_nil_r.
  - rewrite IH. cbn. by rewrite <- app_assoc.
Qed.

Lemma after_retries_clock_reads (url : string) (rc k : nat) (w : world) :
  clock_reads (after_retries url rc k w) = clock_reads w.
Proof.
  revert rc w. induction k as [|k IH]; intros rc w; cbn [after_retries];
    [done | by rewrite IH].
Qed.

Lemma after_retries_saved (url : string) (rc k : nat) (w : world) :
  saved (after_retries url rc k w) = saved w.
Proof.
  revert rc w. induction k as [|k IH]; intros rc w; cbn [after_retries];
    [done | by rewrite IH].
Qed.

Lemma world_eq (w w' : world) :
  requested w = requested w' → slept w = slept w' →
  clock_reads w = clock_reads w' → saved w = saved w' → w = w'.
Proof. destruct w, w'. cbn. by intros -> -> -> ->. Qed.

Lemma pow2_sleep (n : nat) :
  (n ≤ MAX_RETRIES)%nat → 0 ≤ 2 ^ Z.of_nat n ≤ SLEEP_SAFE.
Proof.
  unfold MAX_RETRIES, SLEEP_SAFE. intros H.
  destruct n as [|[|[|[|n]]]]; [cbn; lia.. | lia].
Qed.

(** [k] failures followed by a good answer, within the retry budget. *)
Lemma make_request_recovers_from env (url : string) (r : response) (k : nat) :
  ∀ (rc fuel : nat) (w : world) (err : nat → request_error),
    (rc + k ≤ MAX_RETRIES)%nat →
    (∀ j, (j < k)%nat →
          request_fails env (http_get env (length (requested w) + j) url)
            (err j)) →
    http_get env (length (requested w) + k) url = GetResponse r →
    ¬ (400 ≤ status_code r < 600) →
    (k < fuel)%nat →
    make_request env fuel url rc w
    = (Ret r, log_request url (after_retries url rc k w)).
Proof.
  induction k as [|k IH]; intros rc fuel w err Hrc Hfail Hok Hst Hfuel;
    (destruct fuel as [|fuel]; [lia |]).
  - rewrite Nat.add_0_r in Hok. by apply make_request_ok.
  - rewrite (make_request_fails_step env fuel url rc w (err 0%nat)).
    2:{ specialize (Hfail 0%nat). rewrite Nat.add_0_r in Hfail.
        apply Hfail. lia. }
    destruct (Nat.ltb_spec rc MAX_RETRIES) as [_|?]; [| lia].
    rewrite (bind_ret _ _ _ _ _
               (time_sleep_run env (2 ^ Z.of_nat rc) _
                  (pow2_sleep rc ltac:(lia)))).
    cbn [after_retries].
    apply (IH (S rc) fuel _ (λ j, err (S j))); [lia | | | done | lia].
    + intros j Hj. cbn [log_sleep log_request requested].
      rewrite length_app. cbn [length].
      replace (length (requested w) + 1 + j)%nat
        with (length (requested w) + S j)%nat by lia.
      apply Hfail. lia.
    + cbn [log_sleep log_request requested].
      rewrite length_app. cbn [length].
      replace (length (requested w) + 1 + k)%nat
        with (length (requested w) + S k)%nat by lia.
      exact Hok.
Qed.

(** Failures up to the end of the retry budget. *)
Lemma make_request_exhausts env (url : string) (k : nat) :
  ∀ (rc fuel : nat) (w : world) (err : nat → request_error),
    (rc + k = MAX_RETRIES)%nat →
    (∀ j, (j ≤ k)%nat →
          request_fails env (http_get env (length (requested w) + j) url)
            (err j)) →
    (k < fuel)%nat →
    make_request env fuel url rc w
    = (Raise (RequestException (err k)),
       log_request url (after_retries url rc k w)).
Proof.
  induction k as [|k IH]; intros rc fuel w err Hrc Hfail Hfuel;
    (destruct fuel as [|fuel]; [lia |]).
  - rewrite (make_request_fails_step env fuel url rc w (err 0%nat)).
    2:{ specialize (Hfail 0%nat). rewrite Nat.add_0_r in Hfail.
        apply Hfail. lia. }
    destruct (Nat.ltb_spec rc MAX_RETRIES) as [?|_]; [lia | done].
  - rewrite (make_request_fails_step env fuel url rc w (err 0%nat)).
    2:{ specialize (Hfail 0%nat). rewrite Nat.add_0_r in Hfail.
        apply Hfail. lia. }
    destruct (Nat.ltb_spec rc MAX_RETRIES) as [_|?]; [| lia].
    rewrite (bind_ret _ _ _ _ _
               (time_sleep_run env (2 ^ Z.of_nat rc) _
                  (pow2_sleep rc ltac:(lia)))).
    cbn [after_retries].
    apply (IH (S rc) fuel _ (λ j, err (S j))); [lia | | lia].
    intros j Hj. cbn [log_sleep log_request requested].
    rewrite length_app. cbn [length].
    replace (length (requested w) + 1 + j)%nat
      with (length (requested w) + S j)%nat by lia.
    apply Hfail. lia.
Qed.

(** X1: when the first [k] attempts (at most 3) end in a request-level
    exception and the next answer has no error status, [make_request]
    returns that answer after [k+1] requests, having slept 1, 2, ...,
    [2^(k-1)] seconds. *)
Theorem make_request_recovers env (url : string) (r : response)
    (k fuel : nat) (w : world) (err : nat → request_error) :
  (k ≤ 3)%nat →
  (∀ j, (j < k)%nat →
        request_fails env (http_get env (length (requested w) + j) url)
          (err j)) →
  http_get env (length (requested w) + k) url = GetResponse r →
  ¬ (400 ≤ status_code r < 600) →
  (k < fuel)%nat →
  make_request env fuel url 0 w
  = (Ret r,
     {| requested := requested w ++ replicate (S k) url;
        slept := slept w ++ map (λ j, 2 ^ Z.of_nat j) (seq 0 k);
        clock_reads := clock_reads w;
        saved := saved w |}).
Proof.
  intros Hk Hfail Hok Hst Hfuel.
  rewrite (make_request_recovers_from env url r k 0 fuel w err);
    [| unfold MAX_RETRIES; lia | done..].
  f_equal. apply world_eq; cbn [log_request requested slept clock_reads saved].
  - rewrite after_retries_requested, <- app_assoc. f_equal.
    symmetry. apply replicate_S_end.
  - apply after_retries_slept.
  - apply after_retries_clock_reads.
  - apply after_retries_saved.
Qed.

Lemma make_request_recovers_after_two :
  make_request (server_env (flaky_server 2 (ok_response []))) 3
    "https://api.github.com/rate_limit" 0 world0
  = (Ret (ok_response []),
     {| requested := replicate 3 "https://api.github.com/rate_limit";
        slept := [1; 2]; clock_reads := 0; saved := [] |}).
Proof.
  apply (make_request_recovers (server_env (flaky_server 2 (ok_response [])))
           "https://api.github.com/rate_limit" (ok_response []) 2 3 world0
           (fun _ => ConnectionError "timed out")).
  - lia.
  - intros j Hj. destruct j as [|[|j]]; [apply fails_connection.. | lia].
  - reflexivity.
  - cbn. lia.
  - lia.
Defined.

(** X2: a rate-limit answer whose wait [reset - now + 1] is not negative
    and at most [SLEEP_SAFE] seconds (49 days), so that [time.sleep] takes
    it on every platform,
    followed by an answer without error status: [make_request] sleeps that
    long once and returns the second answer, whatever its retry counter
    was. *)
Theorem make_request_waits_then_returns env (url : string) (reset : Z)
    (r : response) (fuel retry_count : nat) (w : world) :
  rate_limited env (http_get env (length (requested w)) url) reset →
  0 ≤ reset - time_time env (S (length (requested w))) + 1 ≤ SLEEP_SAFE →
  http_get env (S (length (requested w))) url = GetResponse r →
  ¬ (400 ≤ status_code r < 600) →
  (2 ≤ fuel)%nat →
  make_request env fuel url retry_count w
  = (Ret r,
     {| requested := requested w ++ [url; url];
        slept := slept w
                 ++ [reset - time_time env (S (length (requested w))) + 1];
        clock_reads := clock_reads w;
        saved := saved w |}).
Proof.
  intros Hlim Hclock Hok Hst Hfuel.
  do 2 (destruct fuel as [|fuel]; [lia |]).
  rewrite make_request_unfold. unfold try_except.
  rewrite (try_block_rate_limited env url _ w reset Hlim).
  rewrite (bind_ret _ _ _ _ _
             (time_sleep_run env
                (reset - time_time env (S (length (requested w))) + 1)
                (log_request url w) Hclock)).
  rewrite (make_request_ok env fuel url 0 _ r).
  - f_equal. apply world_eq; cbn; [by rewrite <- app_assoc | done..].
  - cbn. rewrite length_app. cbn.
    by replace (length (requested w) + 1)%nat
         with (S (length (requested w))) by lia.
  - done.
Qed.

Lemma make_request_waits_61_seconds :
  make_request
    (server_env (limited_once "1700000060" (GetResponse (ok_response []))))
    2 "https://api.github.com/rate_limit" 3 world0
  = (Ret (ok_response []),
     {| requested := replicate 2 "https://api.github.com/rate_limit";
        slept := [1700000060 - 1700000000 + 1];
        clock_reads := 0; saved := [] |}).
Proof.
  apply (make_request_waits_then_returns
           (server_env
              (limited_once "1700000060" (GetResponse (ok_response []))))
           "https://api.github.com/rate_limit" 1700000060 (ok_response [])
           2 3 world0).
  - exists (limited_response "1700000060"), "0"%string, "1700000060"%string.
    repeat split; reflexivity.
  - unfold SLEEP_SAFE. cbn. lia.
  - reflexivity.
  - cbn. lia.
  - lia.
Defined.

(** X3: the retry ceiling is per call, not per request chain.  After a
    rate-limit wait (not negative and at most [SLEEP_SAFE] seconds, so
    that [time.sleep] takes it) the recursive call starts again at retry
    counter zero inside the outer [try]; when every later attempt fails, that call makes
    4 attempts, and the outer handler, which catches its exception, makes 3
    more: 8 requests and the sleeps [wait, 1, 2, 4, 1, 2, 4] before the
    exception of the last attempt is raised. *)
Theorem make_request_retries_renewed_after_wait env (url : string)
    (reset : Z) (fuel : nat) (w : world) (err : nat → request_error) :
  rate_limited env (http_get env (length (requested w)) url) reset →
  0 ≤ reset - time_time env (S (length (requested w))) + 1 ≤ SLEEP_SAFE →
  (∀ j, request_fails env (http_get env (S (length (requested w)) + j) url)
          (err j)) →
  (5 ≤ fuel)%nat →
  make_request env fuel url 0 w
  = (Raise (RequestException (err 6%nat)),
     {| requested := requested w ++ replicate 8 url;
        slept := slept w
                 ++ [reset - time_time env (S (length (requested w))) + 1;
                     1; 2; 4; 1; 2; 4];
        clock_reads := clock_reads w;
        saved := saved w |}).
Proof.
  intros Hlim Hclock Hfail Hfuel.
  destruct fuel as [|fuel]; [lia |].
  rewrite make_request_unfold. unfold try_except.
  rewrite (try_block_rate_limited env url _ w reset Hlim).
  rewrite (bind_ret _ _ _ _ _
             (time_sleep_run env
                (reset - time_time env (S (length (requested w))) + 1)
                (log_request url w) Hclock)).
  rewrite (make_request_exhausts env url 3 0 fuel _ err);
    [| done | | lia].
  2:{ intros j _. cbn [log_sleep log_request requested].
      rewrite length_app. cbn [length].
      replace (length (requested w) + 1 + j)%nat
        with (S (length (requested w)) + j)%nat by lia.
      apply Hfail. }
  cbn [Nat.ltb Nat.leb MAX_RETRIES].
  rewrite (bind_ret _ _ _ _ _
             (time_sleep_run env (2 ^ Z.of_nat 0) _
                (pow2_sleep 0 ltac:(unfold MAX_RETRIES; lia)))).
  rewrite (make_request_exhausts env url 2 1 fuel _ (λ j, err (4 + j)%nat));
    [| done | | lia].
  2:{ intros j _. cbn [log_sleep log_request requested after_retries].
      rewrite !length_app. cbn [length].
      replace (length (requested w) + 1 + 1 + 1 + 1 + 1 + j)%nat
        with (S (length (requested w)) + (4 + j))%nat by lia.
      apply Hfail. }
  f_equal. apply world_eq; cbn; rewrite <- ?app_assoc; reflexivity.
Qed.

Lemma make_request_eight_requests :
  make_request
    (server_env (limited_once "1700000060" (GetRaises "timed out")))
    5 "https://api.github.com/rate_limit" 0 world0
  = (Raise (RequestException (ConnectionError "timed out")),
     {| requested := replicate 8 "https://api.github.com/rate_limit";
        slept := [1700000060 - 1700000000 + 1; 1; 2; 4; 1; 2; 4];
        clock_reads := 0; saved := [] |}).
Proof.
  apply (make_request_retries_renewed_after_wait
           (server_env (limited_once "1700000060" (GetRaises "timed out")))
           "https://api.github.com/rate_limit" 1700000060 5 world0
           (fun _ => ConnectionError "timed out")).
  - exists (limited_response "1700000060"), "0"%string, "1700000060"%string.
    repeat split; reflexivity.
  - unfold SLEEP_SAFE. cbn. lia.
  - intros j. apply fails_connection.
  - lia.
Defined.

(** X4: exceptions that are not request-level are not retried.  A
    forbidden answer whose remaining header is no number ends
    [make_request] with [ValueError], and one with remaining zero but no
    reset header with the [KeyError] of the case-insensitive header
    dictionary, which names the key in lower case, each after a single
    request and without sleeping, whatever the retry counter. *)
Theorem make_request_malformed_rate_limit env (url : string) (r : response)
    (s : string) (fuel retry_count : nat) (w : world) :
  http_get env (length (requested w)) url = GetResponse r →
  status_code r = 403 →
  headers r !! "X-RateLimit-Remaining" = Some s →
  (int_of_str env s = None →
   make_request env (S fuel) url retry_count w
   = (Raise ValueError, log_request url w))
  ∧ (int_of_str env s = Some 0 →
     headers r !! "X-RateLimit-Reset" = None →
     make_request env (S fuel) url retry_count w
     = (Raise (KeyError "x-ratelimit-reset"), log_request url w)).
Proof.
  intros Hget Hst Hh.
  assert (Hstart : ∀ again,
    try_block env url again w =
      (remaining ← int_header env r "X-RateLimit-Remaining" ;
       if remaining =? 0 then
         reset_time ← int_header env r "X-RateLimit-Reset" ;
         now ← time_now env ;
         time_sleep env (reset_time - now + 1) ;; again
       else (raise_for_status r ;; ret r)) (log_request url w)).
  { intros again. unfold try_block. rewrite bind_run. unfold requests_get.
    rewrite Hget, Hst. by rewrite bool_decide_eq_true_2 by eauto. }
  split.
  - intros Hn. rewrite make_request_unfold. unfold try_except.
    rewrite Hstart. rewrite bind_run. unfold int_header at 1.
    rewrite bind_run, Hh. cbn [lift_option ret]. by rewrite Hn.
  - intros Hn Hreset. rewrite make_request_unfold. unfold try_except.
    rewrite Hstart.
    rewrite (bind_ret _ _ _ _ _ (int_header_run env r _ s 0 _ Hh Hn)).
    cbn [Z.eqb]. rewrite bind_run. unfold int_header.
    by rewrite bind_run, Hreset.
Qed.

Lemma make_request_malformed_samples :
  make_request (server_env (fun _ _ => GetResponse bad_remaining_response)) 4
    "https://api.github.com/rate_limit" 0 world0
  = (Raise ValueError, log_request "https://api.github.com/rate_limit" world0)
  ∧ make_request (server_env (fun _ _ => GetResponse no_reset_response)) 4
      "https://api.github.com/rate_limit" 0 world0
    = (Raise (KeyError "x-ratelimit-reset"),
       log_request "https://api.github.com/rate_limit" world0).
Proof.
  split.
  - apply (proj1 (make_request_malformed_rate_limit
                    (server_env (fun _ _ => GetResponse bad_remaining_response))
                    "https://api.github.com/rate_limit"
                    bad_remaining_response "none" 3 0 world0
                    eq_refl eq_refl eq_refl)).
    reflexivity.
  - apply (proj2 (make_request_malformed_rate_limit
                    (server_env (fun _ _ => GetResponse no_reset_response))
                    "https://api.github.com/rate_limit"
                    no_reset_response "0" 3 0 world0
                    eq_refl eq_refl eq_refl)); reflexivity.
Defined.

Lemma try_block_without_rate_limit env (url : string) (again : M response)
    (w : world) :
  ¬ forbidden_zero_remaining env (http_get env (length (requested w)) url) →
  ∃ o, try_block env url again w = (o, log_request url w) ∧ o ≠ Diverge.
Proof.
  intros Hno. unfold try_block. rewrite bind_run. unfold requests_get.
  destruct (http_get env (length (requested w)) url) as [msg|r] eqn:Hget;
    [by eexists |].
  assert (Hfinish : ∃ o, (raise_for_status r ≫= λ _, ret r)
                           (log_request url w) = (o, log_request url w)
                         ∧ o ≠ Diverge).
  { rewrite bind_run. unfold raise_for_status.
    destruct ((400 <=? status_code r) && (status_code r <? 600));
      by eexists. }
  destruct (Z.eqb_spec (status_code r) 403) as [Hst|_]; [| done].
  destruct (headers r !! "X-RateLimit-Remaining") as [s|] eqn:Hh; cycle 1.
  { rewrite bool_decide_eq_false_2; [done |]. by intros [? ?]. }
  rewrite bool_decide_eq_true_2 by eauto. cbn [andb].
  rewrite bind_run. unfold int_header at 1. rewrite bind_run, Hh.
  cbn [lift_option ret].
  destruct (int_of_str env s) as [n|] eqn:Hn; [| by eexists].
  cbn [lift_option ret].
  destruct (Z.eqb_spec n 0) as [->|_]; [| done].
  exfalso. apply Hno. by exists r, s.
Qed.

Lemma make_request_bounded env (url : string) :
  (∀ k, ¬ forbidden_zero_remaining env (http_get env k url)) →
  ∀ (m rc fuel : nat) (w : world),
    (rc + m = MAX_RETRIES)%nat → (m < fuel)%nat →
    ∃ o k, (k ≤ m)%nat ∧ o ≠ Diverge
           ∧ make_request env fuel url rc w
             = (o, log_request url (after_retries url rc k w)).
Proof.
  intros Hno m. induction m as [|m IH]; intros rc fuel w Hrc Hfuel;
    (destruct fuel as [|fuel]; [lia |]);
    rewrite make_request_unfold; unfold try_except;
    destruct (try_block_without_rate_limit env url
                (make_request env fuel url 0) w (Hno _)) as (o & -> & Ho).
  - exists (match o with
            | Raise (RequestException e) => Raise (RequestException e)
            | _ => o
            end), 0%nat.
    split; [lia |].
    destruct (Nat.ltb_spec rc MAX_RETRIES) as [?|_]; [lia |].
    destruct o as [r|[e| | | | |]|]; done.
  - destruct (Nat.ltb_spec rc MAX_RETRIES) as [_|?]; [| lia].
    destruct o as [r|e|]; [by exists (Ret r), 0%nat; split; [lia |] | | done].
    destruct e as [e| | | | |];
      try (by eexists _, 0%nat; split; [lia |]).
    rewrite (bind_ret _ _ _ _ _
               (time_sleep_run env (2 ^ Z.of_nat rc) _
                  (pow2_sleep rc ltac:(lia)))).
    destruct (IH (S rc) fuel (log_sleep (2 ^ Z.of_nat rc) (log_request url w)))
      as (o' & k & Hk & Ho' & ->); [lia.. |].
    exists o', (S k). split; [lia |]. done.
Qed.

(** X5: when no answer is a rate-limit answer (forbidden with remaining
    zero), [make_request] ends, with an answer or an exception, after at
    most 4 requests, each but the last followed by its backoff sleep. *)
Theorem make_request_terminates_without_rate_limit env (url : string)
    (fuel : nat) (w : world) :
  (∀ k, ¬ forbidden_zero_remaining env (http_get env k url)) →
  (4 ≤ fuel)%nat →
  ∃ o k, (k < 4)%nat ∧ o ≠ Diverge
         ∧ make_request env fuel url 0 w
           = (o, {| requested := requested w ++ replicate (S k) url;
                    slept := slept w ++ map (λ j, 2 ^ Z.of_nat j) (seq 0 k);
                    clock_reads := clock_reads w;
                    saved := saved w |}).
Proof.
  intros Hno Hfuel.
  destruct (make_request_bounded env url Hno 3 0 fuel w)
    as (o & k & Hk & Ho & ->); [done | lia |].
  exists o, k. split; [lia |]. split; [done |]. f_equal.
  apply world_eq; cbn [log_request requested slept clock_reads saved].
  - rewrite after_retries_requested, <- app_assoc. f_equal.
    symmetry. apply replicate_S_end.
  - apply after_retries_slept.
  - apply after_retries_clock_reads.
  - apply after_retries_saved.
Qed.

Lemma make_request_terminates_offline :
  ∃ o k, (k < 4)%nat ∧ o ≠ Diverge
         ∧ make_request (server_env offline) 4
             "https://api.github.com/rate_limit" 0 world0
           = (o, {| requested :=
                      requested world0
                      ++ replicate (S k) "https://api.github.com/rate_limit";
                    slept := slept world0
                             ++ map (λ j, 2 ^ Z.of_nat j) (seq 0 k);
                    clock_reads := clock_reads world0;
                    saved := saved world0 |}).
Proof.
  apply (make_request_terminates_without_rate_limit (server_env offline)
           "https://api.github.com/rate_limit" 4 world0).
  - intros k (r & s & H & _). discriminate.
  - lia.
Defined.

(** ** search_repos: the ways out of the loop *)

Lemma search_loop_after_pages env (fuel : nat) (url : string)
    (max_repos : Z) (ps : list (list (gmap string pyval))) :
  ∀ (iters : nat) (all_repos : list (gmap string pyval)) (page : Z)
    (w w1 : world),
    pages_fetched env fuel url page w ps w1 →
    Z.of_nat (length (all_repos ++ concat ps)) < max_repos →
    search_loop env (length ps + iters) fuel url max_repos all_repos page w
    = search_loop env iters fuel url max_repos (all_repos ++ concat ps)
        (page + Z.of_nat (length ps)) w1.
Proof.
  induction ps as [|items ps IH]; intros iters all_repos page w w1 Hf Hlen;
    inversion Hf; subst.
  - cbn [concat length Nat.add]. by rewrite app_nil_r, Z.add_0_r.
  - cbn [concat] in *. rewrite app_assoc in *.
    cbn [length Nat.add].
    rewrite search_loop_step by (rewrite !length_app in *; lia).
    rewrite search_page_run.
    match goal with H : fetch_items _ _ _ page w = _ |- _ => rewrite H end.
    destruct items as [|repo items]; [done |].
    destruct (Z.geb_spec (Z.of_nat (length (all_repos ++ repo :: items)))
                max_repos) as [Hge|Hlt].
    { rewrite !length_app in *. lia. }
    rewrite (IH iters _ (page + 1) _ w1) by done.
    f_equal. lia.
Qed.

(** X6: when pages 1 to n-1 hold fewer items than the maximum and page n
    comes back empty, [search_repos] returns the items of pages 1 to n-1,
    in order. *)
Theorem search_repos_until_empty_page env (fuel : nat)
    (query sort order : string) (per_page max_repos : Z)
    (ps : list (list (gmap string pyval))) (w w1 w2 : world) :
  let url := search_url query sort order per_page in
  pages_fetched env fuel url 1 w ps w1 →
  Z.of_nat (length (concat ps)) < max_repos →
  fetch_items env fuel url (1 + Z.of_nat (length ps)) w1 = (Ret [], w2) →
  (length ps < fuel)%nat →
  search_repos env fuel query sort order per_page max_repos w
  = (Ret (concat ps), w2).
Proof.
  intros url Hf Hlen Hempty Hfuel. rewrite search_repos_run. fold url.
  replace fuel with (length ps + S (fuel - S (length ps)))%nat at 1 by lia.
  rewrite (search_loop_after_pages env fuel url max_repos ps _ [] 1 w w1)
    by done.
  cbn [app]. rewrite search_loop_step by done.
  rewrite search_page_run, Hempty.
  rewrite slice_to_short by lia. reflexivity.
Qed.

Lemma search_repos_two_records :
  search_repos two_repo_env 2 "stars:>100" "stars" "desc" 100 100 world0
  = (Ret (concat [two_repos]),
     {| requested :=
          [page_url (search_url "stars:>100" "stars" "desc" 100) 1;
           page_url (search_url "stars:>100" "stars" "desc" 100) 2];
        slept := []; clock_reads := 0; saved := [] |}).
Proof.
  apply (search_repos_until_empty_page two_repo_env 2 "stars:>100" "stars"
           "desc" 100 100 [two_repos] world0
           (log_request
              (page_url (search_url "stars:>100" "stars" "desc" 100) 1)
              world0)).
  - eapply fetched_more; [reflexivity | discriminate | apply fetched_none].
  - cbn. lia.
  - reflexivity.
  - cbn. lia.
Defined.

(** X7: when pages 1 to n-1 hold fewer items than the maximum and page n
    brings the count to the maximum or beyond, [search_repos] returns the
    first [max_repos] items of pages 1 to n and requests nothing after
    page n. *)
Theorem search_repos_stops_at_maximum env (fuel : nat)
    (query sort order : string) (per_page max_repos : Z)
    (ps : list (list (gmap string pyval)))
    (last : list (gmap string pyval)) (w w1 w2 : world) :
  let url := search_url query sort order per_page in
  pages_fetched env fuel url 1 w ps w1 →
  Z.of_nat (length (concat ps)) < max_repos →
  fetch_items env fuel url (1 + Z.of_nat (length ps)) w1 = (Ret last, w2) →
  max_repos ≤ Z.of_nat (length (concat ps ++ last)) →
  (length ps < fuel)%nat →
  search_repos env fuel query sort order per_page max_repos w
  = (Ret (take (Z.to_nat max_repos) (concat ps ++ last)), w2).
Proof.
  intros url Hf Hlen Hlast Hmax Hfuel. rewrite search_repos_run. fold url.
  replace fuel with (length ps + S (fuel - S (length ps)))%nat at 1 by lia.
  rewrite (search_loop_after_pages env fuel url max_repos ps _ [] 1 w w1)
    by done.
  cbn [app]. rewrite search_loop_step by done.
  rewrite search_page_run, Hlast.
  destruct last as [|repo last].
  { rewrite app_nil_r in Hmax. lia. }
  destruct (Z.geb_spec (Z.of_nat (length (concat ps ++ repo :: last)))
              max_repos) as [_|?]; [| lia].
  unfold slice_to. destruct (Z.ltb_spec max_repos 0); [lia | done].
Qed.

Lemma search_repos_250_of_300 :
  search_repos paged_env 3 "stars:>100" "stars" "desc" 100 250 world0
  = (Ret (take (Z.to_nat 250)
            (concat [sample_page 0; sample_page 1] ++ sample_page 2)),
     {| requested :=
          [page_url (search_url "stars:>100" "stars" "desc" 100) 1;
           page_url (search_url "stars:>100" "stars" "desc" 100) 2;
           page_url (search_url "stars:>100" "stars" "desc" 100) 3];
        slept := []; clock_reads := 0; saved := [] |}).
Proof.
  apply (search_repos_stops_at_maximum paged_env 3 "stars:>100" "stars"
           "desc" 100 250 [sample_page 0; sample_page 1] (sample_page 2)
           world0
           {| requested :=
                [page_url (search_url "stars:>100" "stars" "desc" 100) 1;
                 page_url (search_url "stars:>100" "stars" "desc" 100) 2];
              slept := []; clock_reads := 0; saved := [] |}).
  - eapply fetched_more; [reflexivity | discriminate |].
    eapply fetched_more; [reflexivity | discriminate | apply fetched_none].
  - cbn [concat]. unfold sample_page.
    rewrite !length_app, !length_map, !length_seq. cbn. lia.
  - reflexivity.
  - cbn [concat]. unfold sample_page.
    rewrite !length_app, !length_map, !length_seq. cbn. lia.
  - cbn. lia.
Defined.

(** X8: an exception of page n that is not request-level, such as the
    [KeyError] of an answer without ['items'], is not caught:
    [search_repos] raises it, and the items of pages 1 to n-1 are not
    returned. *)
Theorem search_repos_propagates_other_exceptions env (fuel : nat)
    (query sort order : string) (per_page max_repos : Z)
    (ps : list (list (gmap string pyval))) (w w1 w2 : world) (e : exn) :
  let url := search_url query sort order per_page in
  pages_fetched env fuel url 1 w ps w1 →
  Z.of_nat (length (concat ps)) < max_repos →
  fetch_items env fuel url (1 + Z.of_nat (length ps)) w1 = (Raise e, w2) →
  (∀ e', e ≠ RequestException e') →
  (length ps < fuel)%nat →
  search_repos env fuel query sort order per_page max_repos w
  = (Raise e, w2).
Proof.
  intros url Hf Hlen Herr Hne Hfuel. rewrite search_repos_run. fold url.
  replace fuel with (length ps + S (fuel - S (length ps)))%nat at 1 by lia.
  rewrite (search_loop_after_pages env fuel url max_repos ps _ [] 1 w w1)
    by done.
  cbn [app]. rewrite search_loop_step by done.
  rewrite search_page_run, Herr.
  destruct e as [e'| | | | |]; [by destruct (Hne e') | done..].
Qed.

Lemma search_repos_missing_items :
  search_repos
    (server_env (first_page_then (GetResponse no_items_response)))
    2 "stars:>100" "stars" "desc" 100 1000 world0
  = (Raise (KeyError "items"),
     {| requested :=
          [page_url (search_url "stars:>100" "stars" "desc" 100) 1;
           page_url (search_url "stars:>100" "stars" "desc" 100) 2];
        slept := []; clock_reads := 0; saved := [] |}).
Proof.
  apply (search_repos_propagates_other_exceptions
           (server_env (first_page_then (GetResponse no_items_response)))
           2 "stars:>100" "stars" "desc" 100 1000 [sample_page 0] world0
           (log_request
              (page_url (search_url "stars:>100" "stars" "desc" 100) 1)
              world0)).
  - eapply fetched_more; [reflexivity | discriminate | apply fetched_none].
  - cbn [concat]. rewrite app_nil_r. unfold sample_page.
    rewrite length_map, length_seq. lia.
  - reflexivity.
  - discriminate.
  - cbn. lia.
Defined.

Lemma search_loop_no_request_exception env (fuel : nat) (url : string)
    (max_repos : Z) :
  ∀ (iters : nat) (all_repos : list (gmap string pyval)) (page : Z)
    (w w' : world) (e : request_error),
    search_loop env iters fuel url max_repos all_repos page w
    ≠ (Raise (RequestException e), w').
Proof.
  induction iters as [|iters IH]; intros all_repos page w w' e.
  - cbn [search_loop]. by destruct (_ <? _).
  - destruct (Z.lt_ge_cases (Z.of_nat (length all_repos)) max_repos)
      as [Hlt|Hge]; [| by rewrite search_loop_done].
    rewrite search_loop_step by done. rewrite search_page_run.
    destruct (fetch_items env fuel url page w) as [[items|e'|] w1];
      [| by destruct e' | done].
    destruct items as [|repo items]; [done |].
    destruct (_ >=? _); [done |]. apply IH.
Qed.

(** X9: [search_repos] never ends in a request-level exception, whatever
    the server does: such an exception is caught inside the loop. *)
Theorem search_repos_no_request_exception env (fuel : nat)
    (query sort order : string) (per_page max_repos : Z) (w : world) :
  is_request_exception
    (search_repos env fuel query sort order per_page max_repos w).1 = false.
Proof.
  rewrite search_repos_run.
  pose proof (search_loop_no_request_exception env fuel
                (search_url query sort order per_page) max_repos fuel [] 1 w)
    as H.
  destruct (search_loop _ _ _ _ _ _ _ _) as [[l|e'|] w1]; [done | | done].
  destruct e' as [e| | | | |]; [| done..]. by destruct (H w1 e).
Qed.

(** ** The classifiers on malformed records *)

Lemma no_push_date_lookup (d : gmap string pyval) :
  no_push_date (Some d) = negb (bool_decide (is_Some (d !! "pushed_at"))).
Proof.
  destruct (d !! "pushed_at") as [v|] eqn:Hd.
  - rewrite (no_push_date_false d v Hd).
    by rewrite bool_decide_eq_true_2 by eauto.
  - rewrite (no_push_date_true d Hd).
    rewrite bool_decide_eq_false_2; [done |]. by intros [? ?].
Qed.

Lemma datetime_strptime_raises env (v : pyval) (w : world) :
  (∀ s, v = VStr s → strptime env s = None) →
  datetime_strptime env v w
  = (Raise (match v with VStr _ => ValueError | _ => TypeError end), w).
Proof.
  intros H. destruct v as [| | |s]; try reflexivity.
  cbn. by rewrite (H s).
Qed.

(** X10: a [pushed_at] that is present but is no timestamp makes both
    classifiers raise, not return false: [TypeError] when the value is not
    a string (JSON null, say), [ValueError] when the string does not parse.
    The clock is not read. *)
Theorem classifiers_raise_on_bad_pushed_at env (d : gmap string pyval)
    (v : pyval) (w : world) :
  d !! "pushed_at" = Some v →
  (∀ s, v = VStr s → strptime env s = None) →
  let e := match v with VStr _ => ValueError | _ => TypeError end in
  is_repo_outdated env (Some d) w = (Raise e, w)
  ∧ is_repo_broken env (Some d) w = (Raise e, w).
Proof.
  intros Hd Hv e. unfold is_repo_outdated, is_repo_broken.
  rewrite (no_push_date_false d v Hd).
  split; rewrite bind_run, getitem_run, Hd;
    by rewrite bind_run, (datetime_strptime_raises env v w Hv).
Qed.

Lemma classifiers_raise_on_null_and_date_only :
  (is_repo_outdated (env_at "2024-01-02T00:00:00Z")
     (Some {[ "pushed_at" := VNone ]}) world0 = (Raise TypeError, world0)
   ∧ is_repo_broken (env_at "2024-01-02T00:00:00Z")
       (Some {[ "pushed_at" := VNone ]}) world0 = (Raise TypeError, world0))
  ∧ (is_repo_outdated (env_at "2024-01-02T00:00:00Z")
       (Some {[ "pushed_at" := VStr "2023-01-01" ]}) world0
     = (Raise ValueError, world0)
     ∧ is_repo_broken (env_at "2024-01-02T00:00:00Z")
         (Some {[ "pushed_at" := VStr "2023-01-01" ]}) world0
       = (Raise ValueError, world0)).
Proof.
  split.
  - apply (classifiers_raise_on_bad_pushed_at (env_at "2024-01-02T00:00:00Z")
             {[ "pushed_at" := VNone ]} VNone world0).
    + reflexivity.
    + intros s Hs. discriminate.
  - apply (classifiers_raise_on_bad_pushed_at (env_at "2024-01-02T00:00:00Z")
             {[ "pushed_at" := VStr "2023-01-01" ]} (VStr "2023-01-01")
             world0).
    + reflexivity.
    + intros s Hs. injection Hs as <-. reflexivity.
Defined.

(** X11: an [open_issues_count] that is present but is no number (JSON
    null, a string) makes [is_repo_broken] raise [TypeError], however
    recent the push, and before the clock is read; [is_repo_outdated]
    does not look at the field. *)
Theorem is_repo_broken_raises_on_bad_issue_count env
    (d : gmap string pyval) (s : string) (t : Z) (v : pyval) (w : world) :
  d !! "pushed_at" = Some (VStr s) →
  strptime env s = Some t →
  d !! "open_issues_count" = Some v →
  int_value v = None →
  is_repo_broken env (Some d) w = (Raise TypeError, w)
  ∧ is_repo_outdated env (Some d) w
    = (Ret (utcnow env (clock_reads w) - t
            >? timedelta_days OUTDATED_THRESHOLD_DAYS), tick w).
Proof.
  intros Hd Hs Hi Hv. split; [| by apply (is_repo_outdated_run env d s)].
  unfold is_repo_broken. rewrite (no_push_date_false d _ Hd).
  rewrite bind_run, getitem_run, Hd. cbn [datetime_strptime].
  rewrite bind_run, Hs. cbn [lift_option ret dict_get].
  erewrite bind_ret by reflexivity. rewrite Hi. cbn [default_value].
  rewrite bind_run. unfold py_gt, py_lt. cbn [int_value]. rewrite Hv.
  by destruct v.
Qed.

Lemma is_repo_broken_raises_on_null_count :
  is_repo_broken (env_at "2024-01-02T00:00:00Z")
    (Some {[ "pushed_at" := VStr "2024-01-01T00:00:00Z";
             "open_issues_count" := VNone ]}) world0
  = (Raise TypeError, world0)
  ∧ is_repo_outdated (env_at "2024-01-02T00:00:00Z")
      (Some {[ "pushed_at" := VStr "2024-01-01T00:00:00Z";
               "open_issues_count" := VNone ]}) world0
    = (Ret (utcnow (env_at "2024-01-02T00:00:00Z") (clock_reads world0)
            - 1704067200000000
            >? timedelta_days OUTDATED_THRESHOLD_DAYS), tick world0).
Proof.
  apply (is_repo_broken_raises_on_bad_issue_count
           (env_at "2024-01-02T00:00:00Z")
           {[ "pushed_at" := VStr "2024-01-01T00:00:00Z";
              "open_issues_count" := VNone ]}
           "2024-01-01T00:00:00Z" 1704067200000000 VNone world0);
    reflexivity.
Defined.

(** X12: the classifiers look at nothing but [pushed_at] and, for
    [is_repo_broken], [open_issues_count]: two records that agree on these
    fields are classified alike, whatever else they hold. *)
Theorem classifiers_depend_on_two_fields env (d d' : gmap string pyval)
    (w : world) :
  d !! "pushed_at" = d' !! "pushed_at" →
  is_repo_outdated env (Some d) w = is_repo_outdated env (Some d') w
  ∧ (d !! "open_issues_count" = d' !! "open_issues_count" →
     is_repo_broken env (Some d) w = is_repo_broken env (Some d') w).
Proof.
  intros Hp. unfold is_repo_outdated, is_repo_broken.
  rewrite !no_push_date_lookup, Hp.
  destruct (bool_decide (is_Some (d' !! "pushed_at"))); cbn [negb];
    [| done].
  split.
  - by rewrite !bind_run, !getitem_run, Hp.
  - intros Hi. rewrite !bind_run, !getitem_run, Hp.
    destruct (d' !! "pushed_at") as [v|]; [| done].
    rewrite !bind_run.
    destruct (datetime_strptime env v w) as [[t|e|] w1]; [| done..].
    rewrite !bind_run. cbn [dict_get mret M_ret ret]. by rewrite Hi.
Qed.

Lemma classifiers_ignore_the_name :
  is_repo_outdated (env_at "2024-01-02T00:00:00Z")
    (Some (repo_record "octo/cat" 50 11 "2023-01-01T00:00:00Z")) world0
  = is_repo_outdated (env_at "2024-01-02T00:00:00Z")
      (Some (repo_record "octo/dog" 7 11 "2023-01-01T00:00:00Z")) world0
  ∧ is_repo_broken (env_at "2024-01-02T00:00:00Z")
      (Some (repo_record "octo/cat" 50 11 "2023-01-01T00:00:00Z")) world0
    = is_repo_broken (env_at "2024-01-02T00:00:00Z")
        (Some (repo_record "octo/dog" 7 11 "2023-01-01T00:00:00Z")) world0.
Proof.
  destruct (classifiers_depend_on_two_fields (env_at "2024-01-02T00:00:00Z")
              (repo_record "octo/cat" 50 11 "2023-01-01T00:00:00Z")
              (repo_record "octo/dog" 7 11 "2023-01-01T00:00:00Z") world0
              eq_refl) as [Ho Hb].
  split; [exact Ho | exact (Hb eq_refl)].
Defined.

(** ** check_repository: when it succeeds, and what it then holds *)

Lemma is_repo_outdated_cases env (d : gmap string pyval) (v : pyval)
    (w : world) :
  d !! "pushed_at" = Some v →
  is_repo_outdated env (Some d) w =
    match v with
    | VStr s =>
      match strptime env s with
      | Some t =>
        (Ret (utcnow env (clock_reads w) - t
              >? timedelta_days OUTDATED_THRESHOLD_DAYS), tick w)
      | None => (Raise ValueError, w)
      end
    | _ => (Raise TypeError, w)
    end.
Proof.
  intros Hd. unfold is_repo_outdated. rewrite (no_push_date_false d v Hd).
  rewrite bind_run, getitem_run, Hd.
  destruct v as [| | |s]; try reflexivity.
  rewrite bind_run. cbn [datetime_strptime].
  by destruct (strptime env s).
Qed.

Lemma is_repo_broken_cases env (d : gmap string pyval) (s : string) (t : Z)
    (w : world) :
  d !! "pushed_at" = Some (VStr s) →
  strptime env s = Some t →
  is_repo_broken env (Some d) w =
    match int_value (default_value (VInt 0) (d !! "open_issues_count")) with
    | Some n =>
      (Ret ((n >? BROKEN_ISSUES_THRESHOLD)
            && (utcnow env (clock_reads w) - t
                >? timedelta_days BROKEN_THRESHOLD_DAYS)), tick w)
    | None => (Raise TypeError, w)
    end.
Proof.
  intros Hd Hs.
  destruct (int_value _) as [n|] eqn:Hn;
    [by apply (is_repo_broken_run env d s) |].
  unfold is_repo_broken. rewrite (no_push_date_false d _ Hd).
  rewrite bind_run, getitem_run, Hd. cbn [datetime_strptime].
  rewrite bind_run, Hs. cbn [lift_option ret dict_get].
  erewrite bind_ret by reflexivity.
  rewrite bind_run. unfold py_gt, py_lt. cbn [int_value]. rewrite Hn.
  by destruct (default_value _ _).
Qed.

Lemma check_repository_inv env (d : gmap string pyval)
    (r : AnalysisResult) (w w' : world) :
  check_repository env (Some d) w = (Ret r, w') →
  ∃ s t n,
    d !! "full_name" = Some (name r)
    ∧ d !! "html_url" = Some (url r)
    ∧ d !! "stargazers_count" = Some (stars r)
    ∧ d !! "open_issues_count" = Some (open_issues r)
    ∧ d !! "pushed_at" = Some (VStr s) ∧ last_push r = VStr s
    ∧ d !! "created_at" = Some (created_at r)
    ∧ description r = default_value (VStr "") (d !! "description")
    ∧ strptime env s = Some t
    ∧ int_value (open_issues r) = Some n
    ∧ is_outdated r
      = (utcnow env (clock_reads w) - t >? timedelta_days 365)
    ∧ is_broken r
      = ((n >? 10)
         && (utcnow env (S (clock_reads w)) - t >? timedelta_days 180))
    ∧ w' = tick (tick w).
Proof.
  intros H.
  destruct (d !! "full_name") as [v1|] eqn:H1; cycle 1.
  { unfold check_repository in H.
    by rewrite bind_run, getitem_run, H1 in H. }
  destruct (d !! "html_url") as [v2|] eqn:H2; cycle 1.
  { unfold check_repository in H.
    rewrite bind_run, getitem_run, H1 in H.
    by rewrite bind_run, getitem_run, H2 in H. }
  destruct (d !! "stargazers_count") as [v3|] eqn:H3; cycle 1.
  { unfold check_repository in H.
    rewrite bind_run, getitem_run, H1 in H.
    rewrite bind_run, getitem_run, H2 in H.
    rewrite bind_run in H. cbn [dict_get mret M_ret ret] in H.
    by rewrite bind_run, getitem_run, H3 in H. }
  destruct (d !! "open_issues_count") as [v4|] eqn:H4; cycle 1.
  { unfold check_repository in H.
    rewrite bind_run, getitem_run, H1 in H.
    rewrite bind_run, getitem_run, H2 in H.
    rewrite bind_run in H. cbn [dict_get mret M_ret ret] in H.
    rewrite bind_run, getitem_run, H3 in H.
    by rewrite bind_run, getitem_run, H4 in H. }
  destruct (d !! "pushed_at") as [v5|] eqn:H5; cycle 1.
  { unfold check_repository in H.
    rewrite bind_run, getitem_run, H1 in H.
    rewrite bind_run, getitem_run, H2 in H.
    rewrite bind_run in H. cbn [dict_get mret M_ret ret] in H.
    rewrite bind_run, getitem_run, H3 in H.
    rewrite bind_run, getitem_run, H4 in H.
    by rewrite bind_run, getitem_run, H5 in H. }
  destruct (d !! "created_at") as [v6|] eqn:H6; cycle 1.
  { unfold check_repository in H.
    rewrite bind_run, getitem_run, H1 in H.
    rewrite bind_run, getitem_run, H2 in H.
    rewrite bind_run in H. cbn [dict_get mret M_ret ret] in H.
    rewrite bind_run, getitem_run, H3 in H.
    rewrite bind_run, getitem_run, H4 in H.
    rewrite bind_run, getitem_run, H5 in H.
    by rewrite bind_run, getitem_run, H6 in H. }
  rewrite (check_repository_run env d w _ _ _ _ _ _ H1 H2 H3 H4 H5 H6) in H.
  rewrite bind_run, (is_repo_outdated_cases env d v5 w H5) in H.
  destruct v5 as [| | |s]; try discriminate.
  destruct (strptime env s) as [t|] eqn:Hs; [| discriminate].
  rewrite bind_run, (is_repo_broken_cases env d s t (tick w) H5 Hs) in H.
  rewrite H4 in H. cbn [default_value] in H.
  destruct (int_value v4) as [n|] eqn:Hn; [| discriminate].
  injection H as <- <-. exists s, t, n. cbn.
  repeat split; done.
Qed.

(** X13: [check_repository] returns a report only for a record that holds
    all six required fields, a [pushed_at] string that parses and a numeric
    issue count.  The report then carries the fields unchanged, the
    description or an empty string, and the two answers, computed from two
    successive readings of the clock. *)
Theorem check_repository_success env (d : gmap string pyval)
    (r : AnalysisResult) (w w' : world) :
  check_repository env (Some d) w = (Ret r, w') →
  ∃ s t n,
    d !! "full_name" = Some (name r)
    ∧ d !! "html_url" = Some (url r)
    ∧ d !! "stargazers_count" = Some (stars r)
    ∧ d !! "open_issues_count" = Some (open_issues r)
    ∧ d !! "pushed_at" = Some (VStr s) ∧ last_push r = VStr s
    ∧ d !! "created_at" = Some (created_at r)
    ∧ description r = default_value (VStr "") (d !! "description")
    ∧ strptime env s = Some t
    ∧ int_value (open_issues r) = Some n
    ∧ is_outdated r
      = (utcnow env (clock_reads w) - t >? timedelta_days 365)
    ∧ is_broken r
      = ((n >? 10)
         && (utcnow env (S (clock_reads w)) - t >? timedelta_days 180))
    ∧ w' = tick (tick w).
Proof. apply check_repository_inv. Qed.

Lemma check_repository_success_sample :
  ∃ s t n,
    repo_record "octo/cat" 50 11 "2023-01-01T00:00:00Z" !! "pushed_at"
      = Some (VStr s)
    ∧ strptime (env_at "2024-01-02T00:00:00Z") s = Some t
    ∧ int_value (VInt 11) = Some n.
Proof.
  destruct (check_repository_success (env_at "2024-01-02T00:00:00Z")
              (repo_record "octo/cat" 50 11 "2023-01-01T00:00:00Z")
              {| name := VStr "octo/cat";
                 url := VStr "https://github.com/octo/cat";
                 description := VNone; stars := VInt 50;
                 open_issues := VInt 11;
                 last_push := VStr "2023-01-01T00:00:00Z";
                 created_at := VStr "2015-06-01T08:00:00Z";
                 is_outdated := true; is_broken := true |}
              world0 (tick (tick world0)) eq_refl)
    as (s & t & n & _ & _ & _ & _ & Hp & _ & _ & _ & Hs & Hn & _).
  exists s, t, n. repeat split; assumption.
Defined.

(** X14: a report that is outdated and counts more than 10 open issues is
    also broken, provided the clock did not run backwards between the two
    readings. *)
Theorem check_repository_outdated_implies_broken env
    (d : gmap string pyval) (r : AnalysisResult) (w w' : world) (n : Z) :
  check_repository env (Some d) w = (Ret r, w') →
  utcnow env (clock_reads w) ≤ utcnow env (S (clock_reads w)) →
  is_outdated r = true →
  int_value (open_issues r) = Some n →
  10 < n →
  is_broken r = true.
Proof.
  intros H Hclock Ho Hn Hlt.
  destruct (check_repository_inv env d r w w' H)
    as (s & t & n' & _ & _ & _ & _ & _ & _ & _ & _ & _ & Hn' & Ho' & Hb' & _).
  rewrite Hn in Hn'. injection Hn' as <-.
  rewrite Hb'. rewrite Ho' in Ho. unfold timedelta_days in *.
  apply andb_true_intro. split; [apply Z.gtb_lt; lia |].
  apply Z.gtb_lt. apply Z.gtb_lt in Ho. lia.
Qed.

Lemma check_repository_outdated_and_broken_sample :
  is_broken report_small = true.
Proof.
  apply (check_repository_outdated_implies_broken
           (env_at "2024-01-02T00:00:00Z")
           (repo_record "octo/small" 50 11 "2023-01-01T00:00:00Z")
           report_small world0 (tick (tick world0)) 11).
  - reflexivity.
  - cbn. lia.
  - reflexivity.
  - reflexivity.
  - lia.
Defined.

(** ** What the classifiers and the reports touch *)

Lemma iter_tick_fields (k : nat) (w : world) :
  requested (Nat.iter k tick w) = requested w
  ∧ slept (Nat.iter k tick w) = slept w
  ∧ saved (Nat.iter k tick w) = saved w
  ∧ clock_reads (Nat.iter k tick w) = (k + clock_reads w)%nat.
Proof.
  induction k as [|k (H1 & H2 & H3 & H4)]; [done |].
  change (Nat.iter (S k) tick w) with (tick (Nat.iter k tick w)).
  cbn [tick requested slept saved clock_reads].
  rewrite H1, H2, H3, H4. done.
Qed.

Lemma iter_tick_add (j k : nat) (w : world) :
  Nat.iter j tick (Nat.iter k tick w) = Nat.iter (k + j) tick w.
Proof. rewrite Nat.add_comm. symmetry. apply Nat.iter_add. Qed.

Lemma ticks_ret {A} (a : A) : ticks 0 (ret a).
Proof. intros w. split; [done |]. by exists 0%nat. Qed.

Lemma ticks_raise {A} (e : exn) : ticks 0 (@raise A e).
Proof. intros w. split; [done |]. by exists 0%nat. Qed.

Lemma ticks_lift_option {A} (e : exn) (o : option A) :
  ticks 0 (lift_option e o).
Proof. destruct o; [apply ticks_ret | apply ticks_raise]. Qed.

Lemma ticks_mono {A} (n n' : nat) (m : M A) :
  (n ≤ n')%nat → ticks n m → ticks n' m.
Proof.
  intros Hn H w. destruct (H w) as (Hd & k & Hk & Hw).
  split; [done |]. exists k. split; [lia | done].
Qed.

Lemma ticks_bind {A B} (n n' : nat) (m : M A) (f : A → M B) :
  ticks n m → (∀ a, ticks n' (f a)) → ticks (n + n') (m ≫= f).
Proof.
  intros Hm Hf w. rewrite bind_run.
  destruct (Hm w) as (Hd & k & Hk & Hw).
  destruct (m w) as [[a|e|] w1]; cbn in Hd, Hw; subst w1.
  - destruct (Hf a (Nat.iter k tick w)) as (Hd' & j & Hj & Hw').
    split; [done |]. exists (k + j)%nat. split; [lia |].
    by rewrite Hw', iter_tick_add.
  - split; [done |]. exists k. split; [lia | done].
  - done.
Qed.

Lemma ticks_utcnow env : ticks 1 (datetime_utcnow env).
Proof. intros w. split; [done |]. by exists 1%nat. Qed.

Lemma ticks_getitem (repo_info : option (gmap string pyval)) (key : string) :
  ticks 0 (getitem repo_info key).
Proof.
  destruct repo_info; [apply ticks_lift_option | apply ticks_raise].
Qed.

Lemma ticks_dict_get (repo_info : option (gmap string pyval)) (key : string)
    (default : pyval) :
  ticks 0 (dict_get repo_info key default).
Proof. destruct repo_info; [apply ticks_ret | apply ticks_raise]. Qed.

Lemma ticks_strptime env (v : pyval) : ticks 0 (datetime_strptime env v).
Proof.
  destruct v; try apply ticks_raise. apply ticks_lift_option.
Qed.

Lemma ticks_is_repo_outdated env (repo_info : option (gmap string pyval)) :
  ticks 1 (is_repo_outdated env repo_info).
Proof.
  unfold is_repo_outdated.
  destruct (no_push_date repo_info);
    [apply (ticks_mono 0); [lia | apply ticks_ret] |].
  apply (ticks_bind 0 1); [apply ticks_getitem |]. intros pushed_at.
  apply (ticks_bind 0 1); [apply ticks_strptime |]. intros t.
  apply (ticks_bind 1 0); [apply ticks_utcnow |]. intros now.
  apply ticks_ret.
Qed.

Lemma ticks_is_repo_broken env (repo_info : option (gmap string pyval)) :
  ticks 1 (is_repo_broken env repo_info).
Proof.
  unfold is_repo_broken.
  destruct (no_push_date repo_info);
    [apply (ticks_mono 0); [lia | apply ticks_ret] |].
  apply (ticks_bind 0 1); [apply ticks_getitem |]. intros pushed_at.
  apply (ticks_bind 0 1); [apply ticks_strptime |]. intros t.
  apply (ticks_bind 0 1); [apply ticks_dict_get |]. intros issues.
  apply (ticks_bind 0 1); [apply ticks_lift_option |]. intros b.
  apply (ticks_bind 1 0); [apply ticks_utcnow |]. intros now.
  apply ticks_ret.
Qed.

Lemma ticks_check_repository env (repo_info : option (gmap string pyval)) :
  ticks 2 (check_repository env repo_info).
Proof.
  unfold check_repository.
  apply (ticks_bind 0 2); [apply ticks_getitem |]. intros v1.
  apply (ticks_bind 0 2); [apply ticks_getitem |]. intros v2.
  apply (ticks_bind 0 2); [apply ticks_dict_get |]. intros v3.
  apply (ticks_bind 0 2); [apply ticks_getitem |]. intros v4.
  apply (ticks_bind 0 2); [apply ticks_getitem |]. intros v5.
  apply (ticks_bind 0 2); [apply ticks_getitem |]. intros v6.
  apply (ticks_bind 0 2); [apply ticks_getitem |]. intros v7.
  apply (ticks_bind 1 1); [apply ticks_is_repo_outdated |]. intros o.
  apply (ticks_bind 1 0); [apply ticks_is_repo_broken |]. intros b.
  apply ticks_ret.
Qed.

Lemma ticks_check_all env (repos : list (gmap string pyval)) :
  ticks (2 * length repos) (check_all env repos).
Proof.
  induction repos as [|repo repos IH]; cbn [check_all].
  - apply ticks_ret.
  - apply (ticks_mono (2 + (2 * length repos + 0))); [cbn [length]; lia |].
    apply ticks_bind; [apply ticks_check_repository |]. intros result.
    apply ticks_bind; [apply IH |]. intros results. apply ticks_ret.
Qed.

(** X15: building the reports touches nothing but the clock.  For any list
    of records, [check_all] (the loop of [main]) ends, issues no request,
    does not sleep, writes nothing, and reads the clock at most twice per
    record. *)
Theorem check_all_only_reads_the_clock env
    (repos : list (gmap string pyval)) (w : world) :
  is_diverge (check_all env repos w).1 = false
  ∧ requested (check_all env repos w).2 = requested w
  ∧ slept (check_all env repos w).2 = slept w
  ∧ saved (check_all env repos w).2 = saved w
  ∧ (clock_reads w ≤ clock_reads (check_all env repos w).2
     ≤ clock_reads w + 2 * length repos)%nat.
Proof.
  destruct (ticks_check_all env repos w) as (Hd & k & Hk & ->).
  destruct (iter_tick_fields k w) as (H1 & H2 & H3 & H4).
  rewrite H1, H2, H3, H4. repeat split; [done | lia..].
Qed.

(** ** What the requests and the search touch *)

Lemma extends_refl (P : string → Prop) (w : world) : extends P w w.
Proof.
  repeat split; [by exists []; rewrite app_nil_r..].
Qed.

Lemma extends_trans (P : string → Prop) (w1 w2 w3 : world) :
  extends P w1 w2 → extends P w2 w3 → extends P w1 w3.
Proof.
  intros (Hc & Hs & (us & Hu & HP) & (ss & Hss & Hnn))
         (Hc' & Hs' & (us' & Hu' & HP') & (ss' & Hss' & Hnn')).
  repeat split; [congruence | congruence | |].
  - exists (us ++ us'). split; [by rewrite Hu', Hu, app_assoc |].
    by apply Forall_app.
  - exists (ss ++ ss'). split; [by rewrite Hss', Hss, app_assoc |].
    by apply Forall_app.
Qed.

Lemma extends_impl (P Q : string → Prop) (w w' : world) :
  (∀ u, P u → Q u) → extends P w w' → extends Q w w'.
Proof.
  intros HPQ (Hc & Hs & (us & Hu & HP) & Hss).
  repeat split; [done | done | | done].
  exists us. split; [done |]. by eapply Forall_impl.
Qed.

Lemma ro_ret {A} (P : string → Prop) (a : A) : requests_only P (ret a).
Proof. intros w. apply extends_refl. Qed.

Lemma ro_raise {A} (P : string → Prop) (e : exn) :
  requests_only P (@raise A e).
Proof. intros w. apply extends_refl. Qed.

Lemma ro_diverge {A} (P : string → Prop) : requests_only P (@diverge A).
Proof. intros w. apply extends_refl. Qed.

Lemma ro_lift_option {A} (P : string → Prop) (e : exn) (o : option A) :
  requests_only P (lift_option e o).
Proof. destruct o; [apply ro_ret | apply ro_raise]. Qed.

Lemma ro_bind {A B} (P : string → Prop) (m : M A) (f : A → M B) :
  requests_only P m → (∀ a, requests_only P (f a)) →
  requests_only P (m ≫= f).
Proof.
  intros Hm Hf w. rewrite bind_run. specialize (Hm w).
  destruct (m w) as [[a|e|] w1]; cbn [snd] in *; [| done..].
  eapply extends_trans; [exact Hm | apply Hf].
Qed.

Lemma ro_try_except {A} (P : string → Prop) (m : M A)
    (h : request_error → M A) :
  requests_only P m → (∀ e, requests_only P (h e)) →
  requests_only P (try_except m h).
Proof.
  intros Hm Hh w. unfold try_except. specialize (Hm w).
  destruct (m w) as [[a|[e| | | | |]|] w1]; cbn [snd] in *; try done.
  eapply extends_trans; [exact Hm | apply Hh].
Qed.

Lemma ro_requests_get env (P : string → Prop) (url : string) :
  P url → requests_only P (requests_get env url).
Proof.
  intros HP w. unfold requests_get.
  assert (H : extends P w (log_request url w)).
  { repeat split; [by exists [url]; split; [| constructor] |].
    exists []. by rewrite app_nil_r. }
  by destruct (http_get env (length (requested w)) url).
Qed.

Lemma ro_time_sleep env (P : string → Prop) (secs : Z) :
  requests_only P (time_sleep env secs).
Proof.
  intros w. unfold time_sleep.
  destruct (_ || _); [apply extends_refl |].
  destruct (Z.ltb_spec secs 0); [apply extends_refl |].
  assert (H' : extends P w (log_sleep secs w)).
  { repeat split; [by exists []; rewrite app_nil_r |].
    exists [secs]. split; [done |]. by constructor. }
  destruct (secs <=? SLEEP_SAFE); [done |].
  destruct (sleep_long env secs); [apply extends_refl | done].
Qed.

Lemma ro_time_now env (P : string → Prop) : requests_only P (time_now env).
Proof. intros w. apply extends_refl. Qed.

Lemma ro_int_header env (P : string → Prop) (r : response) (key : string) :
  requests_only P (int_header env r key).
Proof.
  unfold int_header. apply ro_bind; [apply ro_lift_option |].
  intros s. apply ro_lift_option.
Qed.

Lemma ro_raise_for_status (P : string → Prop) (r : response) :
  requests_only P (raise_for_status r).
Proof.
  unfold raise_for_status. destruct (_ && _); [apply ro_raise | apply ro_ret].
Qed.

Lemma ro_json_items (P : string → Prop) (r : response) :
  requests_only P (json_items r).
Proof.
  unfold json_items.
  destruct (json r) as [|[l|]]; [apply ro_raise | apply ro_ret | apply ro_raise].
Qed.

Lemma ro_make_request env (url : string) (fuel retry_count : nat) :
  requests_only (λ u, u = url) (make_request env fuel url retry_count).
Proof.
  revert retry_count.
  induction fuel as [|fuel IH]; intros rc; [apply ro_diverge |].
  rewrite make_request_unfold. apply ro_try_except.
  - unfold try_block. apply ro_bind; [by apply ro_requests_get |].
    intros r.
    assert (Hfinish : requests_only (λ u, u = url)
                        (raise_for_status r ≫= λ _, ret r)).
    { apply ro_bind; [apply ro_raise_for_status |].
      intros _. apply ro_ret. }
    destruct (_ && _); [| done].
    apply ro_bind; [apply ro_int_header |]. intros remaining.
    destruct (remaining =? 0); [| done].
    apply ro_bind; [apply ro_int_header |]. intros reset_time.
    apply ro_bind; [apply ro_time_now |]. intros now.
    apply ro_bind; [apply ro_time_sleep |]. intros _. apply IH.
  - intros e. destruct (rc <? MAX_RETRIES)%nat; [| apply ro_raise].
    apply ro_bind; [apply ro_time_sleep |]. intros _. apply IH.
Qed.

(** X16: whatever the server answers, [make_request] requests no URL but
    the one it was given, sleeps for non-negative times only, and neither
    reads [datetime.utcnow()] nor writes a file. *)
Theorem make_request_touches_only_its_url env (url : string)
    (fuel retry_count : nat) (w : world) :
  let w' := (make_request env fuel url retry_count w).2 in
  (∃ n, requested w' = requested w ++ replicate n url)
  ∧ (∃ ss, slept w' = slept w ++ ss ∧ Forall (λ t, 0 ≤ t) ss)
  ∧ clock_reads w' = clock_reads w
  ∧ saved w' = saved w.
Proof.
  intros w'. subst w'.
  destruct (ro_make_request env url fuel retry_count w)
    as (Hc & Hs & (us & Hu & HP) & Hss).
  split; [| by split; [| split]].
  exists (length us). rewrite Hu. f_equal.
  clear Hu. induction HP as [|u us -> _ IH]; [done |].
  cbn. by f_equal.
Qed.

Lemma ro_search_loop env (fuel : nat) (url : string) (max_repos : Z) :
  ∀ (iters : nat) (all_repos : list (gmap string pyval)) (page : Z),
    1 ≤ page →
    requests_only (λ u, ∃ p, 1 ≤ p ∧ u = page_url url p)
      (search_loop env iters fuel url max_repos all_repos page).
Proof.
  induction iters as [|iters IH]; intros all_repos page Hp w.
  { cbn [search_loop]. destruct (_ <? _); apply extends_refl. }
  destruct (Z.lt_ge_cases (Z.of_nat (length all_repos)) max_repos)
    as [Hlt|Hge]; [| rewrite search_loop_done by done; apply extends_refl].
  rewrite search_loop_step by done. rewrite search_page_run.
  assert (Hf : extends (λ u, ∃ p, 1 ≤ p ∧ u = page_url url p) w
                 (fetch_items env fuel url page w).2).
  { eapply extends_impl; cycle 1.
    - apply (ro_bind (λ u, u = page_url url page));
        [apply ro_make_request | intros r; apply ro_json_items].
    - intros u ->. by exists page. }
  destruct (fetch_items env fuel url page w) as [[items|e|] w1];
    cbn [snd] in Hf; [| by destruct e | done].
  destruct items as [|repo items]; [done |].
  destruct (_ >=? _); [done |].
  eapply extends_trans; [exact Hf |]. apply IH. lia.
Qed.

Lemma search_repos_requests_only_pages_aux env (fuel : nat)
    (query sort order : string) (per_page max_repos : Z) (w : world) :
  extends (λ u, ∃ p, 1 ≤ p
                     ∧ u = page_url (search_url query sort order per_page) p)
    w (search_repos env fuel query sort order per_page max_repos w).2.
Proof.
  rewrite search_repos_run.
  pose proof (ro_search_loop env fuel (search_url query sort order per_page)
                max_repos fuel [] 1 ltac:(lia) w) as H.
  by destruct (search_loop _ _ _ _ _ _ _ _) as [[l|e|] w1].
Qed.

(** X17: whatever the server answers, [search_repos] requests only page
    URLs of its search URL, with page numbers from 1 up, sleeps for
    non-negative times only, and neither reads [datetime.utcnow()] nor
    writes a file. *)
Theorem search_repos_requests_only_pages env (fuel : nat)
    (query sort order : string) (per_page max_repos : Z) (w : world) :
  let url := search_url query sort order per_page in
  let w' := (search_repos env fuel query sort order per_page max_repos w).2 in
  (∃ us, requested w' = requested w ++ us
         ∧ Forall (λ u, ∃ p, 1 ≤ p ∧ u = page_url url p) us)
  ∧ (∃ ss, slept w' = slept w ++ ss ∧ Forall (λ t, 0 ≤ t) ss)
  ∧ clock_reads w' = clock_reads w
  ∧ saved w' = saved w.
Proof.
  intros url w'. subst w'. rewrite search_repos_run. fold url.
  destruct (ro_search_loop env fuel url max_repos fuel [] 1 ltac:(lia) w)
    as (Hc & Hs & Hu & Hss).
  destruct (search_loop _ _ _ _ _ _ _ _) as [[l|e|] w1]; cbn [snd] in *;
    by split; [| split; [| split]].
Qed.

(** ** main: the token, the sort, and the write *)

Lemma insert_desc_perm {A} (key : A → pyval) (x : A) (l l' : list A) :
  insert_desc key x l = Some l' → Permutation (x :: l) l'.
Proof.
  revert l'. induction l as [|y l IH]; intros l' H; cbn [insert_desc] in H.
  - by injection H as <-.
  - destruct (py_lt (key x) (key y)) as [[|]|]; cbn in H; [| | done].
    + destruct (insert_desc key x l) as [l''|]; cbn in H; [| done].
      injection H as <-. rewrite perm_swap. constructor. by apply IH.
    + by injection H as <-.
Qed.

Lemma sort_reverse_perm {A} (key : A → pyval) (l s : list A) :
  sort_reverse key l = Some s → Permutation l s.
Proof.
  revert s. induction l as [|x l IH]; intros s H; cbn [sort_reverse] in H.
  - by injection H as <-.
  - destruct (sort_reverse key l) as [s'|]; cbn in H; [| done].
    rewrite (IH s' eq_refl). by apply (insert_desc_perm key).
Qed.


Lemma insert_desc_filter (P : AnalysisResult → Prop)
    `{∀ r, Decision (P r)} (x : AnalysisResult)
    (l l' : list AnalysisResult) :
  (∀ y, P x → P y → py_lt (stars x) (stars y) = Some false) →
  insert_desc stars x l = Some l' →
  filter P l' = filter P (x :: l).
Proof.
  intros Heq. revert l'.
  induction l as [|y l IH]; intros l' H'; cbn [insert_desc] in H'.
  - by injection H' as <-.
  - destruct (py_lt (stars x) (stars y)) as [[|]|] eqn:Hlt; cbn in H';
      [| by injection H' as <- | done].
    destruct (insert_desc stars x l) as [l''|]; cbn in H'; [| done].
    injection H' as <-. rewrite filter_cons, (IH l'' eq_refl).
    rewrite !filter_cons.
    destruct (decide (P y)) as [Hy|Hy]; [| done].
    destruct (decide (P x)) as [Hx|Hx]; [| done].
    rewrite (Heq y Hx Hy) in Hlt. discriminate.
Qed.

Lemma sort_reverse_filter (P : AnalysisResult → Prop)
    `{∀ r, Decision (P r)} (l s : list AnalysisResult) :
  (∀ x y, P x → P y → py_lt (stars x) (stars y) = Some false) →
  sort_reverse stars l = Some s →
  filter P s = filter P l.
Proof.
  intros Heq. revert s.
  induction l as [|x l IH]; intros s Hs; cbn [sort_reverse] in Hs.
  - by injection Hs as <-.
  - destruct (sort_reverse stars l) as [s'|]; cbn in Hs; [| done].
    rewrite (insert_desc_filter P x s' s (Heq x) Hs).
    by rewrite !filter_cons, (IH s' eq_refl).
Qed.

Lemma py_lt_not_none (a b : pyval) (c : bool) :
  py_lt a b = Some c → a ≠ VNone ∧ b ≠ VNone.
Proof. destruct a, b; cbn; done. Qed.

Lemma sort_reverse_no_none {A} (key : A → pyval) (l s : list A) :
  sort_reverse key l = Some s → (2 ≤ length l)%nat →
  Forall (λ x, key x ≠ VNone) l.
Proof.
  revert s. induction l as [|x l IH]; intros s H Hlen; [done |].
  cbn [sort_reverse] in H.
  destruct (sort_reverse key l) as [s'|] eqn:Hs'; cbn in H; [| done].
  pose proof (sort_reverse_perm key l s' Hs') as Hp.
  destruct s' as [|h t].
  { apply Permutation_nil_r in Hp. subst l. cbn in Hlen. lia. }
  cbn [insert_desc] in H.
  destruct (py_lt (key x) (key h)) as [c|] eqn:Hlt; [| done].
  apply py_lt_not_none in Hlt as [Hx Hh].
  constructor; [done |].
  destruct l as [|y [|z l]].
  - cbn in Hlen. lia.
  - apply Permutation_singleton_l in Hp. injection Hp as <- _.
    by constructor.
  - apply (IH (h :: t) eq_refl). cbn. lia.
Qed.

Lemma main_unfold env (fuel : nat) (args : Namespace) (w : world) :
  truthy (GITHUB_TOKEN env) = true →
  main env fuel args w =
    match search_repos env fuel (query args) "stars" "desc" 100
            (max_repos args) w with
    | (Ret repos, w1) =>
      match check_all env repos w1 with
      | (Ret results, w2) =>
        match sort_reverse stars results with
        | Some rs => after_write env args rs w2
        | None => (Raise TypeError, w2)
        end
      | (Raise e, w2) => (Raise e, w2)
      | (Diverge, w2) => (Diverge, w2)
      end
    | (Raise e, w1) => (Raise e, w1)
    | (Diverge, w1) => (Diverge, w1)
    end.
Proof.
  intros Ht. unfold main. rewrite Ht. cbn [negb]. rewrite bind_run.
  destruct (search_repos _ _ _ _ _ _ _ _) as [[repos|e|] w1]; [| done..].
  rewrite bind_run.
  destruct (check_all env repos w1) as [[results|e|] w2]; [| done..].
  rewrite bind_run.
  destruct (sort_reverse stars results) as [rs|]; [| done].
  cbn [lift_option ret]. rewrite bind_run. unfold after_write.
  destruct (output args) as [[|a path]|]; try reflexivity.
  unfold json_dump.
  destruct (fs_write env (String a path) rs); reflexivity.
Qed.

(** X18: without a token, or with an empty one, [main] stops at once: no
    request is issued, nothing is read or written. *)
Theorem main_without_token env (fuel : nat) (args : Namespace) (w : world) :
  GITHUB_TOKEN env = None ∨ GITHUB_TOKEN env = Some ""%string →
  main env fuel args w = (Ret None, w).
Proof. intros [H|H]; unfold main; by rewrite H. Qed.

Lemma main_without_token_sample :
  main no_token_env 5 sample_args world0 = (Ret None, world0).
Proof.
  apply (main_without_token no_token_env 5 sample_args world0).
  by left.
Defined.


Lemma check_all_inv env (repos : list (gmap string pyval)) :
  ∀ (results : list AnalysisResult) (w w' : world),
    check_all env repos w = (Ret results, w') →
    Forall (λ d, ∀ k, k ∈ required_fields → is_Some (d !! k)) repos
    ∧ map stars results
      = map (λ d, default VNone (d !! "stargazers_count")) repos.
Proof.
  induction repos as [|d repos IH]; intros results w w' H;
    cbn [check_all] in H.
  - injection H as <- _. by split.
  - rewrite bind_run in H.
    destruct (check_repository env (Some d) w) as [[r|e|] w1] eqn:Hd;
      [| done..].
    rewrite bind_run in H.
    destruct (check_all env repos w1) as [[rs|e|] w2] eqn:Hrs; [| done..].
    injection H as <- _.
    destruct (IH rs w1 w2 Hrs) as [Hall Hstars].
    destruct (check_repository_inv env d r w w1 Hd)
      as (s & t & n & H1 & H2 & H3 & H4 & H5 & _ & H6 & _).
    split.
    + constructor; [| done]. intros k Hk. unfold required_fields in Hk.
      repeat (apply elem_of_cons in Hk as [-> | Hk]; [by eexists |]).
      by apply elem_of_nil in Hk.
    + cbn [map]. by rewrite H3, Hstars.
Qed.

(** X20: one record without one of the six required fields brings the
    whole run down: [main] ends in an exception and writes nothing, also
    for the records that were complete. *)
Theorem main_aborts_on_incomplete_record env (fuel : nat) (args : Namespace)
    (w w1 : world) (repos : list (gmap string pyval)) :
  truthy (GITHUB_TOKEN env) = true →
  search_repos env fuel (query args) "stars" "desc" 100 (max_repos args) w
    = (Ret repos, w1) →
  (∃ d k, d ∈ repos ∧ k ∈ required_fields ∧ d !! k = None) →
  is_raise (main env fuel args w).1 = true
  ∧ saved (main env fuel args w).2 = saved w.
Proof.
  intros Ht Hs (d & k & Hd & Hk & Hnone).
  rewrite (main_unfold env fuel args w Ht), Hs.
  destruct (search_repos_requests_only_pages_aux env fuel (query args)
              "stars" "desc" 100 (max_repos args) w) as (_ & Hs1 & _).
  rewrite Hs in Hs1. cbn [snd] in Hs1.
  destruct (ticks_check_all env repos w1) as (Hdiv & j & _ & Hw2).
  destruct (iter_tick_fields j w1) as (_ & _ & Hs2 & _).
  destruct (check_all env repos w1) as [[results|e|] w2] eqn:Hc;
    cbn [fst snd] in Hdiv, Hw2; [| | done].
  - destruct (check_all_inv env repos results w1 w2 Hc) as [Hall _].
    rewrite Forall_forall in Hall.
    destruct (Hall d Hd k Hk) as [v Hv]. congruence.
  - subst w2. split; [done |]. cbn. congruence.
Qed.

Lemma main_aborts_on_record_without_stars :
  is_raise
    (main (listing_env [[numbered_repo 1; repo_without_stars]]) 2
       sample_args world0).1 = true
  ∧ saved
      (main (listing_env [[numbered_repo 1; repo_without_stars]]) 2
         sample_args world0).2 = saved world0.
Proof.
  eapply (main_aborts_on_incomplete_record
            (listing_env [[numbered_repo 1; repo_without_stars]]) 2
            sample_args world0 _ [numbered_repo 1; repo_without_stars]).
  - reflexivity.
  - reflexivity.
  - exists repo_without_stars, "stargazers_count"%string.
    split; [| split].
    + rewrite !elem_of_cons. tauto.
    + in_required.
    + reflexivity.
Defined.



(** X22: the sort of [main] is stable.  With numeric star counts, the
    reports that share a star count stand, in the collection that [main]
    returns or hands to the write, in the order in which the search
    returned them. *)
Theorem main_keeps_order_of_equal_stars env (fuel : nat) (args : Namespace)
    (w w1 w2 : world) (repos : list (gmap string pyval))
    (results : list AnalysisResult) :
  truthy (GITHUB_TOKEN env) = true →
  search_repos env fuel (query args) "stars" "desc" 100 (max_repos args) w
    = (Ret repos, w1) →
  check_all env repos w1 = (Ret results, w2) →
  Forall (λ r, is_Some (star_count r)) results →
  ∃ rs, main env fuel args w = after_write env args rs w2
        ∧ ∀ k, filter (λ r, star_count r = Some k) rs
               = filter (λ r, star_count r = Some k) results.
Proof.
  intros Ht Hs Hc Hnum.
  destruct (sort_reverse_sorted results Hnum) as (rs & Hsort & _ & _).
  exists rs. split; [by eapply main_run |].
  intros k. apply sort_reverse_filter; [| done].
  intros x y Hx Hy. unfold star_count in Hx, Hy. unfold py_lt.
  rewrite Hx, Hy. by rewrite Z.ltb_irrefl.
Qed.

Lemma main_keeps_order_of_equal_stars_sample :
  ∃ rs,
    main (listing_env
            [[repo_record "octo/a" 4 0 "2023-12-24T00:00:00Z";
              repo_record "octo/b" 9 0 "2023-12-24T00:00:00Z";
              repo_record "octo/c" 4 0 "2023-12-24T00:00:00Z"]])
      2 sample_args world0
    = (Ret (Some rs),
       log_saved "report.json" (Complete rs)
         {| requested :=
              [page_url (search_url "stars:>100" "stars" "desc" 100) 1;
               page_url (search_url "stars:>100" "stars" "desc" 100) 2];
            slept := []; clock_reads := 6; saved := [] |})
    ∧ map name (filter (λ r, star_count r = Some 4) rs)
      = [VStr "octo/a"; VStr "octo/c"].
Proof.
  destruct (main_keeps_order_of_equal_stars
              (listing_env
                 [[repo_record "octo/a" 4 0 "2023-12-24T00:00:00Z";
                   repo_record "octo/b" 9 0 "2023-12-24T00:00:00Z";
                   repo_record "octo/c" 4 0 "2023-12-24T00:00:00Z"]])
              2 sample_args world0 _ _ _ _
              eq_refl eq_refl eq_refl
              ltac:(repeat constructor; by eexists))
    as (rs & Hmain & Hfilter).
  exists rs. split; [exact Hmain |]. by rewrite Hfilter.
Defined.

(** X23: a null star count among two or more reports makes the sort, and
    with it [main], end in [TypeError] after all reports were built;
    nothing is written. *)
Theorem main_raises_on_null_star_count env (fuel : nat) (args : Namespace)
    (w w1 w2 : world) (repos : list (gmap string pyval))
    (results : list AnalysisResult) :
  truthy (GITHUB_TOKEN env) = true →
  search_repos env fuel (query args) "stars" "desc" 100 (max_repos args) w
    = (Ret repos, w1) →
  check_all env repos w1 = (Ret results, w2) →
  (2 ≤ length results)%nat →
  (∃ r, r ∈ results ∧ stars r = VNone) →
  main env fuel args w = (Raise TypeError, w2).
Proof.
  intros Ht Hs Hc Hlen (r & Hr & Hnone).
  rewrite (main_unfold env fuel args w Ht), Hs, Hc.
  destruct (sort_reverse stars results) as [rs|] eqn:Hsort; [| done].
  pose proof (sort_reverse_no_none stars results rs Hsort Hlen) as Hall.
  rewrite Forall_forall in Hall. by destruct (Hall r Hr).
Qed.

Lemma main_raises_on_null_star_count_sample :
  ∃ w2,
    main (listing_env [[numbered_repo 9; repo_null_stars]]) 2 sample_args
      world0
    = (Raise TypeError, w2)
    ∧ saved w2 = [].
Proof.
  eexists. split.
  - eapply (main_raises_on_null_star_count
              (listing_env [[numbered_repo 9; repo_null_stars]]) 2
              sample_args world0 _ _ [numbered_repo 9; repo_null_stars]
              [{| name := VStr "octo/repo9";
                  url := VStr "https://github.com/octo/repo9";
                  description := VNone; stars := VInt 9;
                  open_issues := VInt 0;
                  last_push := VStr "2023-01-01T00:00:00Z";
                  created_at := VStr "2015-06-01T08:00:00Z";
                  is_outdated := true; is_broken := false |};
               {| name := VStr "octo/null";
                  url := VStr "https://github.com/octo/null";
                  description := VNone; stars := VNone;
                  open_issues := VInt 0;
                  last_push := VStr "2023-12-24T00:00:00Z";
                  created_at := VStr "2015-06-01T08:00:00Z";
                  is_outdated := false; is_broken := false |}]).
    + reflexivity.
    + reflexivity.
    + reflexivity.
    + cbn. lia.
    + eexists. split; [rewrite !elem_of_cons; right; left; reflexivity |].
      reflexivity.
  - reflexivity.
Defined.
